(** * AutoFlow orchestrator: a shallow embedding of [.autoflow/agents/orchestrator.py]

    The development follows the layout of the Python module:
    Python strings, the process monad (stdin, stdout, exceptions,
    [sys.exit]), [GitHubIssues], [ContextFirewall], [WorktreeManager],
    [HumanCheckpoint], the four agents and [AutoFlowOrchestrator].
    Everything the module obtains from outside the process (git, gh, the
    file system, the clock, the Claude service, a few library functions)
    is a field of the [Platform] class, so every theorem holds for every
    behaviour of those collaborators. *)

From Stdlib Require Import ZArith NArith Lia List Ascii String Decimal Bool.
From stdpp Require Import base list gmap strings.
Import ListNotations.

Local Open Scope N_scope.

(** ** Python strings

    A Python [str] is a sequence of Unicode code points and [len] counts
    code points, so a string is a list of code points. *)

Abbreviation str := (list N).

(** Source literals are written as Rocq strings (UTF-8 bytes) and decoded. *)
Fixpoint utf8_decode (bs : list N) : str :=
  match bs with
  | [] => []
  | b :: r =>
    if b <? 128 then b :: utf8_decode r
    else if b <? 224 then
      match r with
      | b1 :: r1 =>
        N.lor (N.shiftl (N.land b 31) 6) (N.land b1 63) :: utf8_decode r1
      | _ => []
      end
    else if b <? 240 then
      match r with
      | b1 :: b2 :: r2 =>
        N.lor (N.shiftl (N.land b 15) 12)
          (N.lor (N.shiftl (N.land b1 63) 6) (N.land b2 63)) :: utf8_decode r2
      | _ => []
      end
    else
      match r with
      | b1 :: b2 :: b3 :: r3 =>
        N.lor (N.shiftl (N.land b 7) 18)
          (N.lor (N.shiftl (N.land b1 63) 12)
             (N.lor (N.shiftl (N.land b2 63) 6) (N.land b3 63))) :: utf8_decode r3
      | _ => []
      end
  end.

Definition lit (s : string) : str :=
  utf8_decode (map Byte.to_N (list_byte_of_string s)).

(** ["\n"] *)
Definition nl : str := [10].

(** [str(n)] for a non-negative integer: its decimal digits. *)
Fixpoint digits (d : Decimal.uint) : str :=
  match d with
  | Nil => []
  | D0 d => 48 :: digits d
  | D1 d => 49 :: digits d
  | D2 d => 50 :: digits d
  | D3 d => 51 :: digits d
  | D4 d => 52 :: digits d
  | D5 d => 53 :: digits d
  | D6 d => 54 :: digits d
  | D7 d => 55 :: digits d
  | D8 d => 56 :: digits d
  | D9 d => 57 :: digits d
  end.

Definition str_of_nat (n : nat) : str := digits (Nat.to_uint n).

Definition str_of_Z (z : Z) : str :=
  match z with
  | Zneg p => 45 :: digits (Pos.to_uint p)
  | _ => digits (N.to_uint (Z.to_N z))
  end.

(** [s.split(sep)] for a one-character separator: never returns the empty
    list, [''.split('\n') == ['']]. *)
Fixpoint split (sep : N) (s : str) : list str :=
  match s with
  | [] => [[]]
  | c :: r =>
    if c =? sep then [] :: split sep r
    else match split sep r with
         | h :: t => (c :: h) :: t
         | [] => [[c]]
         end
  end.

(** [sep.join(parts)] *)
Fixpoint join (sep : str) (parts : list str) : str :=
  match parts with
  | [] => []
  | [p] => p
  | p :: ps => p ++ sep ++ join sep ps
  end.

(** The code points CPython's [str.strip()] removes
    ([_PyUnicode_IsWhitespace]). *)
Definition isspace (c : N) : bool :=
  ((9 <=? c) && (c <=? 13)) || ((28 <=? c) && (c <=? 32))
  || (c =? 133) || (c =? 160) || (c =? 5760)
  || ((8192 <=? c) && (c <=? 8202))
  || (c =? 8232) || (c =? 8233) || (c =? 8239) || (c =? 8287) || (c =? 12288).

Fixpoint lstrip (s : str) : str :=
  match s with
  | [] => []
  | c :: r => if isspace c then lstrip r else s
  end.

Definition rstrip (s : str) : str := rev (lstrip (rev s)).

Definition strip (s : str) : str := rstrip (lstrip s).

Fixpoint str_eqb (a b : str) : bool :=
  match a, b with
  | [], [] => true
  | x :: a', y :: b' => (x =? y) && str_eqb a' b'
  | _, _ => false
  end.

(** [s.startswith(p)] *)
Fixpoint startswith (p s : str) : bool :=
  match p, s with
  | [], _ => true
  | x :: p', y :: s' => (x =? y) && startswith p' s'
  | _ :: _, [] => false
  end.

(** [s.startswith((p1, ..., pk))] with a tuple of prefixes. *)
Definition startswith_any (ps : list str) (s : str) : bool :=
  existsb (fun p => startswith p s) ps.

(** [s[:n]]: a negative bound counts from the end. *)
Definition slice_to (s : str) (n : Z) : str :=
  if (0 <=? n)%Z then firstn (Z.to_nat n) s
  else firstn (Z.to_nat (Z.of_nat (length s) + n)) s.

(** [sub in s] *)
Fixpoint contains (sub s : str) : bool :=
  startswith sub s ||
  match s with
  | [] => false
  | _ :: r => contains sub r
  end.

(** [s.replace(a, b)] for one-character [a] and [b]. *)
Definition replace_char (a b : N) (s : str) : str :=
  map (fun c => if c =? a then b else c) s.

(** ** The process and its environment *)

(** The five phases of the workflow, in order. *)
Inductive Phase := Research | Plan | Implement | Validate | Integrate.

(** Exceptions the module can raise, and the outcome of a computation:
    a value, an uncaught exception, or [sys.exit(code)]. *)
Inductive Exn :=
| EOFError
| OSError
| TypeError
| KeyError (key : string)
| OverflowError.

Inductive Res (A : Type) :=
| Ok (a : A)
| Raise (e : Exn)
| SysExit (code : Z).
Arguments Ok {A} a.
Arguments Raise {A} e.
Arguments SysExit {A} code.

(** What the process does, in order.  [EvPrint], [EvPrompt], [EvRun],
    [EvWrite] and [EvClaude] are its observable actions; [EvPhase],
    [EvAgent] and [EvDecision] mark the entry of a [_phase_k] method, the
    call of a phase's agent (for Integrate, of [merge_worktree]) and the
    value a checkpoint returned. *)
Inductive Event :=
| EvPrint (line : str)
| EvPrompt (prompt : str)
| EvRun (argv : list str)
| EvWrite (path content : str)
| EvClaude (prompt : str)
| EvPhase (p : Phase)
| EvAgent (p : Phase)
| EvDecision (p : Phase) (approved : bool).

(** Values shown at a checkpoint or stored in a result dict. *)
Inductive value :=
| VStr (s : str)
| VInt (z : Z).

(** [str(v)], as an f-string renders it. *)
Definition py_str (v : value) : str :=
  match v with
  | VStr s => s
  | VInt z => str_of_Z z
  end.

(** A Python number: an int, or a float kept as its printed form. *)
Inductive number :=
| NInt (z : Z)
| NFloat (repr : str).

(** [f"{n}"] *)
Definition str_of_number (n : number) : str :=
  match n with
  | NInt z => str_of_Z z
  | NFloat repr => repr
  end.

(** Data handed to [json.dumps] or decoded by [json.loads]: [None], a
    bool, an int, a float kept as its printed form, a string, a list, or
    a dict with its items in order. *)
#[warnings="-register-all"]
Inductive json :=
| JNull
| JBool (b : bool)
| JInt (z : Z)
| JFloat (repr : str)
| JStr (s : str)
| JList (items : list json)
| JDict (fields : list (str * json)).

(** [d[key]] when [key in d] *)
Fixpoint dict_get (fields : list (str * json)) (key : str) : option json :=
  match fields with
  | [] => None
  | (k, v) :: rest => if str_eqb k key then Some v else dict_get rest key
  end.

(** Everything outside the process.  [Ext] is the state of the outside
    world (file system, git repository, GitHub, clock, Claude service). *)
Class Platform := {
  Ext : Type;
  (** [subprocess.run(argv, cwd=...)]: return code and captured stdout,
      or [None] when the program cannot be started ([OSError]). *)
  subprocess_run : list str -> option str -> Ext -> Ext * option (Z * str);
  (** [Path.exists()] *)
  path_exists : str -> Ext -> bool;
  (** [str(Path(a) / b)] *)
  path_join : str -> str -> str;
  (** [open(path, 'w').write(content)]; [false] is an [OSError]. *)
  write_text : str -> str -> Ext -> Ext * bool;
  (** [datetime.now().strftime("%Y%m%d-%H%M%S")] *)
  strftime_now : Ext -> Ext * str;
  (** [claude.messages.create(model, max_tokens, messages)] followed by
      [.content[0].text]: the text, or the message of the exception. *)
  messages_create : str -> Z -> str -> Ext -> Ext * (str + str);
  (** [str.lower()] *)
  lower : str -> str;
  (** [json.dumps(v, indent=2)] *)
  json_dumps : json -> str;
  (** [json.loads(text)] on the array found in the service's answer:
      the message of the exception, or what was decoded -- a list, since
      the text starts with a bracket; its elements are any JSON values. *)
  json_loads : str -> str + list json;
  (** [float(z)], printed; [None] when [z] is too large for a float
      ([OverflowError]). *)
  float_of_int : Z -> option str;
  (** What [sum] yields once a float has come up: [start] is the total of
      the ints before the first float, [later] that float and the numbers
      after it. *)
  float_sum : Z -> list number -> str;
  (** [x < z] for a float [x] *)
  float_lt : str -> Z -> bool;
  (** [repr(v)] of a list or dict *)
  json_repr : json -> str
}.

Section Process.
Context `{Platform}.

Record State := mkState {
  ext : Ext;
  stdin : list str;
  trace : list Event
}.

Definition M (A : Type) : Type := State -> Res A * State.

Definition ret {A} (a : A) : M A := fun st => (Ok a, st).

Definition bind {A B} (m : M A) (k : A -> M B) : M B :=
  fun st =>
    match m st with
    | (Ok a, st') => k a st'
    | (Raise e, st') => (Raise e, st')
    | (SysExit c, st') => (SysExit c, st')
    end.

Definition raise {A} (e : Exn) : M A := fun st => (Raise e, st).

Definition sys_exit {A} (code : Z) : M A := fun st => (SysExit code, st).

Definition emit (e : Event) : M unit :=
  fun st => (Ok tt, mkState (ext st) (stdin st) (trace st ++ [e])).

Definition print (line : str) : M unit := emit (EvPrint line).

Definition with_ext {A} (f : Ext -> Ext * A) : M A :=
  fun st => let '(x, a) := f (ext st) in (Ok a, mkState x (stdin st) (trace st)).

Definition read_ext {A} (f : Ext -> A) : M A :=
  fun st => (Ok (f (ext st)), st).

End Process.

Notation "'let*' x := m 'in' k" := (bind m (fun x => k))
  (at level 10, x name, m at level 100, k at level 200).
Notation "m ;; k" := (bind m (fun _ => k))
  (at level 100, k at level 200, right associativity).

Section Primitives.
Context `{Platform}.

(** [subprocess.run(argv, cwd=cwd)] *)
Definition run (argv : list str) (cwd : option str) : M (Z * str) :=
  emit (EvRun argv) ;;
  let* r := with_ext (subprocess_run argv cwd) in
  match r with
  | Some out => ret out
  | None => raise OSError
  end.

(** [with open(path, 'w') as f: f.write(content)] *)
Definition write_file (path content : str) : M unit :=
  let* ok := with_ext (write_text path content) in
  if ok : bool then emit (EvWrite path content) else raise OSError.

(** [self.claude.messages.create(...).content[0].text] *)
Definition ask_claude (model : str) (max_tokens : Z) (prompt : str)
  : M (str + str) :=
  emit (EvClaude prompt) ;;
  with_ext (messages_create model max_tokens prompt).

End Primitives.

(** ** The objects of the module

    [AutoFlowOrchestrator.__init__] derives every directory from the
    working directory; [claude] tells whether the agents hold a client
    (the SDK is installed and [ANTHROPIC_API_KEY] is set). *)
Record Self := mkSelf {
  base_dir : str;
  claude : bool
}.

Section Directories.
Context `{Platform}.

Definition autoflow_dir (self : Self) : str :=
  path_join (base_dir self) (lit ".autoflow").

Definition firewall_dir (self : Self) : str :=
  path_join (autoflow_dir self) (lit "context-firewalls").

Definition worktrees_dir (self : Self) : str :=
  path_join (base_dir self) (lit "worktrees").

End Directories.

(** ["=" * 60] *)
Definition rule : str := concat (repeat (lit "=") 60).

(** ** GitHubIssues *)

Module GitHubIssues.
Section Methods.
Context `{Platform}.

Definition create_issue (title body : str) (labels : list str)
  : M (option str) :=
  let cmd := [lit "gh"; lit "issue"; lit "create";
              lit "--title"; title;
              lit "--body"; body;
              lit "--label"; join (lit ",") labels] in
  let* result := run cmd None in
  let '(returncode, out) := result in
  if (returncode =? 0)%Z then
    let issue_url := strip out in
    let issue_number := List.last (split 47 issue_url) [] in
    ret (Some issue_number)
  else ret None.

(** [issue_number] is [None] when [create_issue] failed; [subprocess.run]
    rejects an argument list that holds [None] with a [TypeError]. *)
Definition comment_issue (issue_number : option str) (comment : str)
  : M unit :=
  match issue_number with
  | Some n =>
    run [lit "gh"; lit "issue"; lit "comment"; n; lit "--body"; comment] None ;;
    ret tt
  | None => raise TypeError
  end.

Definition close_issue (issue_number : option str) : M unit :=
  match issue_number with
  | Some n => run [lit "gh"; lit "issue"; lit "close"; n] None ;; ret tt
  | None => raise TypeError
  end.

End Methods.
End GitHubIssues.

Import GitHubIssues.

(** ** ContextFirewall *)

Module ContextFirewall.

Definition is_key_point (l : str) : bool :=
  startswith_any [lit "-"; lit "*"; lit "1"; lit "2"; lit "3"] (strip l).

Definition key_points_of (full_output : str) : list str :=
  List.filter is_key_point (split 10 full_output).

Definition header (n : nat) : str :=
  lit "SUMMARY (" ++ str_of_nat n ++ lit " key points):" ++ nl ++ nl.

Definition truncation_marker : str := nl ++ nl ++ lit "[Truncated...]".

Definition create_summary (full_output : str) (max_tokens : Z) : str :=
  let lines := split 10 full_output in
  let key_points := List.filter is_key_point lines in
  let summary := header (length key_points) in
  let summary := summary ++ join nl (firstn 20 key_points) in
  if (Z.of_nat (length summary) >? max_tokens * 4)%Z
  then slice_to summary (max_tokens * 4) ++ truncation_marker
  else summary.

Section Methods.
Context `{Platform}.

Definition _timestamp : M str := with_ext strftime_now.

Definition save_full_output (self : Self) (agent_name phase content : str)
  : M str :=
  let* timestamp := _timestamp in
  let filename :=
    agent_name ++ lit "-" ++ phase ++ lit "-" ++ timestamp ++ lit ".md" in
  let filepath := path_join (firewall_dir self) filename in
  write_file filepath content ;;
  ret filepath.

End Methods.
End ContextFirewall.

Import ContextFirewall.

(** ** WorktreeManager *)

Module WorktreeManager.
Section Methods.
Context `{Platform}.

Definition create_worktree (self : Self) (branch_name : str)
  (issue_number : option str) : M (option str) :=
  let worktree_path := path_join (worktrees_dir self) branch_name in
  let* present := read_ext (path_exists worktree_path) in
  if present : bool then
    print (lit "❌ Worktree already exists: " ++ worktree_path) ;;
    ret None
  else
    let cmd := [lit "git"; lit "worktree"; lit "add"; worktree_path;
                lit "-b"; branch_name] in
    let* result := run cmd (Some (base_dir self)) in
    if (fst result =? 0)%Z then
      print (lit "✅ Created worktree: " ++ worktree_path) ;;
      ret (Some worktree_path)
    else ret None.

Definition merge_worktree (self : Self) (branch_name : str) : M bool :=
  let worktree_path := path_join (worktrees_dir self) branch_name in
  let* present := read_ext (path_exists worktree_path) in
  if negb present then
    print (lit "❌ Worktree not found: " ++ worktree_path) ;;
    ret false
  else
    (* Merge to main *)
    run [lit "git"; lit "checkout"; lit "main"] (Some (base_dir self)) ;;
    run [lit "git"; lit "merge"; lit "--no-ff"; branch_name]
        (Some (base_dir self)) ;;
    (* Cleanup *)
    run [lit "git"; lit "worktree"; lit "remove"; worktree_path]
        (Some (base_dir self)) ;;
    run [lit "git"; lit "branch"; lit "-d"; branch_name]
        (Some (base_dir self)) ;;
    print (lit "✅ Merged and cleaned up: " ++ branch_name) ;;
    ret true.

End Methods.
End WorktreeManager.

Import WorktreeManager.

(** ** HumanCheckpoint *)

Module HumanCheckpoint.
Section Methods.
Context `{Platform}.

Definition _handle_modify (data : list (str * value)) : M bool :=
  print (nl ++ lit "📝 Modification not implemented yet.") ;;
  print (lit "   Please approve or reject for now.") ;;
  ret false.

Definition approval_prompt : str := lit "❓ Approve? [yes/no/modify]: ".

Definition member (s : str) (l : list str) : bool :=
  existsb (str_eqb s) l.

(** The [while True] loop, unrolled over the lines pending on stdin:
    each turn [input] writes the prompt and takes one line, and raises
    [EOFError] when none is left. *)
Fixpoint approval_loop (data : list (str * value)) (pending : list str)
  (st : State) : Res bool * State :=
  let st := mkState (ext st) (stdin st)
              (trace st ++ [EvPrompt approval_prompt]) in
  match pending with
  | [] => (Raise EOFError, st)
  | line :: rest =>
    let st := mkState (ext st) rest (trace st) in
    let response := lower line in
    if member response [lit "yes"; lit "y"] then (Ok true, st)
    else if member response [lit "no"; lit "n"] then (Ok false, st)
    else if member response [lit "modify"; lit "m"] then
      _handle_modify data st
    else approval_loop data rest st
  end.

Fixpoint display (data : list (str * value)) : M unit :=
  match data with
  | [] => ret tt
  | (key, v) :: rest =>
    print (key ++ lit ":") ;;
    print (lit "  " ++ py_str v) ;;
    print [] ;;
    display rest
  end.

Definition request_approval (checkpoint_type : str)
  (data : list (str * value)) : M bool :=
  print (nl ++ rule) ;;
  print (lit "🚦 HUMAN CHECKPOINT: " ++ checkpoint_type) ;;
  print rule ;;
  print [] ;;
  display data ;;
  fun st => approval_loop data (stdin st) st.

End Methods.
End HumanCheckpoint.

Import HumanCheckpoint.

(** ** Phase 1: ResearchAgent *)

Record Pattern := mkPattern {
  p_title : str;
  p_relevance : option str   (* a float, kept as its printed form *)
}.

Record CodeExample := mkExample {
  e_title : str;
  e_language : option str
}.

Record ResearchResult := mkResearchResult {
  r_summary : str;
  r_full_document : str;
  r_findings_count : nat;
  r_recommendation : str
}.

Definition model_name : str := lit "claude-sonnet-4-20250514".

(** [doc += f(x)] for every [x] of [xs]. *)
Definition add_lines {A} (f : A -> str) (xs : list A) (doc : str) : str :=
  fold_left (fun d x => d ++ f x) xs doc.

Module ResearchAgent.
Section Methods.
Context `{Platform}.

Definition _search_knowledge_base (topic : str) : list Pattern :=
  [mkPattern (lit "Pattern 1 for " ++ topic) (Some (lit "0.95"));
   mkPattern (lit "Pattern 2 for " ++ topic) (Some (lit "0.89"));
   mkPattern (lit "Pattern 3 for " ++ topic) (Some (lit "0.82"))].

Definition _search_code_examples (topic : str) : list CodeExample :=
  [mkExample (lit "Example 1 for " ++ topic) (Some (lit "python"));
   mkExample (lit "Example 2 for " ++ topic) (Some (lit "typescript"))].

Definition _review_docs (topic : str) : list str :=
  [lit "Documentation for " ++ topic].

Definition json_of_pattern (p : Pattern) : json :=
  JDict ((lit "title", JStr (p_title p)) ::
         match p_relevance p with
         | Some r => [(lit "relevance", JFloat r)]
         | None => []
         end).

Definition json_of_example (e : CodeExample) : json :=
  JDict ((lit "title", JStr (e_title e)) ::
         match e_language e with
         | Some l => [(lit "language", JStr l)]
         | None => []
         end).

Definition research_prompt (topic : str) (kb_results : list Pattern)
  (code_examples : list CodeExample) (docs : list str) : str :=
  lit "Research Task: " ++ topic ++ nl ++ nl ++
  lit "Knowledge Base Results:" ++ nl ++
  json_dumps (JList (map json_of_pattern kb_results)) ++ nl ++ nl ++
  lit "Code Examples:" ++ nl ++
  json_dumps (JList (map json_of_example code_examples)) ++ nl ++ nl ++
  lit "Documentation:" ++ nl ++
  json_dumps (JList (map JStr docs)) ++ nl ++ nl ++
  lit "Create a comprehensive research document that:" ++ nl ++
  lit "1. Analyzes all patterns found" ++ nl ++
  lit "2. Compares pros/cons of each approach" ++ nl ++
  lit "3. Provides security considerations" ++ nl ++
  lit "4. Estimates implementation complexity" ++ nl ++
  lit "5. Recommends the best approach with reasoning" ++ nl ++
  lit "6. Includes implementation considerations" ++ nl ++ nl ++
  lit "Format as detailed markdown.".

(** The basic document built when no client is held or its call raised. *)
Definition basic_research_document (topic : str) (kb_results : list Pattern)
  (code_examples : list CodeExample) (docs : list str) : str :=
  let doc := lit "# Research: " ++ topic ++ nl ++ nl in
  let doc := doc ++ lit "## Knowledge Base Results (" ++
             str_of_nat (length kb_results) ++ lit " found)" ++ nl ++ nl in
  let doc := add_lines (fun result =>
               lit "- " ++ p_title result ++ lit " (relevance: " ++
               default (lit "N/A") (p_relevance result) ++ lit ")" ++ nl)
             kb_results doc in
  let doc := doc ++ nl ++ lit "## Code Examples (" ++
             str_of_nat (length code_examples) ++ lit " found)" ++ nl ++ nl in
  let doc := add_lines (fun example =>
               lit "- " ++ e_title example ++ lit " (" ++
               default (lit "N/A") (e_language example) ++ lit ")" ++ nl)
             code_examples doc in
  let doc := doc ++ nl ++ lit "## Documentation Review" ++ nl ++ nl in
  add_lines (fun doc_item => lit "- " ++ doc_item ++ nl) docs doc.

Definition _create_research_document (self : Self) (topic : str)
  (kb_results : list Pattern) (code_examples : list CodeExample)
  (docs : list str) : M str :=
  let fallback :=
    ret (basic_research_document topic kb_results code_examples docs) in
  if claude self then
    let prompt := research_prompt topic kb_results code_examples docs in
    let* message := ask_claude model_name 4000 prompt in
    match message with
    | inl text => ret text
    | inr e =>
      print (lit "⚠️  Claude API error: " ++ e) ;;
      print (lit "   Falling back to basic document...") ;;
      fallback
    end
  else fallback.

Definition _generate_recommendation (kb_results : list Pattern)
  (code_examples : list CodeExample) : str :=
  lit "Based on " ++ str_of_nat (length kb_results) ++
  lit " patterns and " ++ str_of_nat (length code_examples) ++
  lit " examples, recommend proceeding with implementation.".

Definition execute (self : Self) (topic : str)
  (sources : list str) : M ResearchResult :=
  print (nl ++ lit "🔍 Research Agent: " ++ topic) ;;
  print rule ;;
  print (nl ++ lit "📚 Searching knowledge base...") ;;
  let kb_results := _search_knowledge_base topic in
  print (nl ++ lit "💻 Searching code examples...") ;;
  let code_examples := _search_code_examples topic in
  print (nl ++ lit "📖 Reviewing documentation...") ;;
  let docs := _review_docs topic in
  let* full_output :=
    _create_research_document self topic kb_results code_examples docs in
  let* filepath := save_full_output self (lit "research") topic full_output in
  let summary := ContextFirewall.create_summary full_output 2000 in
  ret (mkResearchResult summary filepath
         (length kb_results + length code_examples)
         (_generate_recommendation kb_results code_examples)).

End Methods.
End ResearchAgent.

Import ResearchAgent.

(** ** Phase 2: PlanAgent *)

Record Complexity := mkComplexity {
  total_hours : number;
  complexity : str;
  recommended_track : str
}.

Record PlanResult := mkPlanResult {
  pl_summary : str;
  pl_full_document : str;
  pl_task_count : nat;
  pl_estimated_hours : number;
  pl_plan_approved : bool
}.

(** [re.search(r'\[.*\]', content, re.DOTALL)]: from the first ['['] to
    the last [']'] after it. *)
Fixpoint drop_until (c : N) (s : str) : str :=
  match s with
  | [] => []
  | x :: r => if x =? c then s else drop_until c r
  end.

Definition search_json_array (content : str) : option str :=
  match drop_until 91 content with
  | [] => None
  | bracket :: rest =>
    match rev (drop_until 93 (rev rest)) with
    | [] => None
    | body => Some (bracket :: body)
    end
  end.

Module PlanAgent.
Section Methods.
Context `{Platform}.

Definition plan_prompt (task_description research_summary : str) : str :=
  lit "Task: " ++ task_description ++ nl ++ nl ++
  lit "Research Summary:" ++ nl ++
  research_summary ++ nl ++ nl ++
  lit "Break this down into specific, actionable implementation tasks." ++
  nl ++ nl ++
  lit "For each task provide:" ++ nl ++
  lit "- name: Clear task name" ++ nl ++
  lit "- type: setup/implementation/testing/documentation" ++ nl ++
  lit "- hours: Estimated hours (realistic)" ++ nl ++ nl ++
  lit "Return as JSON array.".

Definition default_tasks : list json :=
  let task n t h :=
    JDict [(lit "name", JStr (lit n)); (lit "type", JStr (lit t));
           (lit "hours", JInt h)] in
  [task "Set up project structure" "setup" 1%Z;
   task "Implement core functionality" "implementation" 4%Z;
   task "Add error handling" "implementation" 2%Z;
   task "Write unit tests" "testing" 3%Z;
   task "Write integration tests" "testing" 2%Z;
   task "Update documentation" "documentation" 1%Z].

Definition _break_into_tasks (self : Self)
  (task_description research_summary : str) : M (list json) :=
  let on_error (e : str) : M (list json) :=
    print (lit "⚠️  Claude API error: " ++ e) ;;
    print (lit "   Using default tasks...") ;;
    ret default_tasks in
  if claude self then
    let prompt := plan_prompt task_description research_summary in
    let* message := ask_claude model_name 2000 prompt in
    match message with
    | inl content =>
      match search_json_array content with
      | Some json_match =>
        match json_loads json_match with
        | inr tasks => ret tasks
        | inl e => on_error e
        end
      | None => ret default_tasks
      end
    | inr e => on_error e
    end
  else ret default_tasks.

Definition _identify_dependencies (tasks : list json) : list (str * str) :=
  [(lit "Set up project structure", lit "Implement core functionality");
   (lit "Implement core functionality", lit "Add error handling");
   (lit "Add error handling", lit "Write unit tests")].

(** [task[key]] for a string key: only a dict takes one ([TypeError]
    otherwise), and the key must be in it ([KeyError]). *)
Definition subscript (task : json) (key : string) : M json :=
  match task with
  | JDict fields =>
    match dict_get fields (lit key) with
    | Some v => ret v
    | None => raise (KeyError key)
    end
  | _ => raise TypeError
  end.

(** What [sum] can add: an int, a bool -- counted as 1 or 0 -- or a
    float; [+] raises a [TypeError] on anything else. *)
Definition operand (v : json) : M number :=
  match v with
  | JInt z => ret (NInt z)
  | JBool b => ret (NInt (Z.b2z b))
  | JFloat x => ret (NFloat x)
  | _ => raise TypeError
  end.

(** [sum(task["hours"] for task in tasks)]: the tasks are subscripted
    and their hours added one after the other, starting from the int 0.
    Ints add up exactly in [start]; from the first float on the numbers
    are gathered in [later] and the total is a float.  An int is
    converted when it meets a float, which raises an [OverflowError]
    when it is too large. *)
Fixpoint sum_hours (tasks : list json) (start : Z) (later : list number)
  : M number :=
  match tasks with
  | [] =>
    ret (match later with
         | [] => NInt start
         | _ :: _ => NFloat (float_sum start later)
         end)
  | task :: rest =>
    let* v := subscript task "hours" in
    let* n := operand v in
    match later, n with
    | [], NInt z => sum_hours rest (start + z)%Z []
    | [], NFloat _ =>
      match float_of_int start with
      | Some _ => sum_hours rest start [n]
      | None => raise OverflowError
      end
    | _ :: _, NInt z =>
      match float_of_int z with
      | Some _ => sum_hours rest start (later ++ [n])
      | None => raise OverflowError
      end
    | _ :: _, NFloat _ => sum_hours rest start (later ++ [n])
    end
  end.

(** [total_hours < 10] *)
Definition below_10 (total_hours : number) : bool :=
  match total_hours with
  | NInt z => (z <? 10)%Z
  | NFloat x => float_lt x 10
  end.

Definition _estimate_complexity (tasks : list json) : M Complexity :=
  let* total := sum_hours tasks 0%Z [] in
  ret (mkComplexity total
         (if below_10 total then lit "medium" else lit "high")
         (if below_10 total then lit "standard" else lit "enterprise")).

(** [f"{v}"] for a decoded value *)
Definition str_of_json (v : json) : str :=
  match v with
  | JNull => lit "None"
  | JBool true => lit "True"
  | JBool false => lit "False"
  | JInt z => str_of_Z z
  | JFloat x => x
  | JStr s => s
  | JList _ | JDict _ => json_repr v
  end.

(** [for i, task in enumerate(tasks, i): doc += ...] *)
Fixpoint add_task_lines (i : nat) (tasks : list json) (doc : str) : M str :=
  match tasks with
  | [] => ret doc
  | task :: rest =>
    let* name := subscript task "name" in
    let* type := subscript task "type" in
    let* hours := subscript task "hours" in
    add_task_lines (S i) rest
      (doc ++ str_of_nat i ++ lit ". **" ++ str_of_json name ++
       lit "** (" ++ str_of_json type ++ lit ") - " ++
       str_of_json hours ++ lit "h" ++ nl)
  end.

Definition _create_plan_document (task_description : str)
  (tasks : list json) (dependencies : list (str * str))
  (cx : Complexity) : M str :=
  let doc := lit "# Implementation Plan: " ++ task_description ++ nl ++ nl in
  let doc := doc ++ lit "## Overview" ++ nl ++ nl in
  let doc := doc ++ lit "- **Total Tasks**: " ++
             str_of_nat (length tasks) ++ nl in
  let doc := doc ++ lit "- **Estimated Time**: " ++
             str_of_number (total_hours cx) ++ lit " hours" ++ nl in
  let doc := doc ++ lit "- **Complexity**: " ++ complexity cx ++ nl in
  let doc := doc ++ lit "- **Track**: " ++ recommended_track cx ++ nl ++ nl in
  let doc := doc ++ lit "## Tasks Breakdown" ++ nl ++ nl in
  let* doc := add_task_lines 1 tasks doc in
  let doc := doc ++ nl ++ lit "## Dependencies" ++ nl ++ nl in
  let doc := add_lines (fun dep =>
               lit "- " ++ fst dep ++ lit " → " ++ snd dep ++ nl)
             dependencies doc in
  let doc := doc ++ nl ++ lit "## Implementation Order" ++ nl ++ nl in
  let doc := doc ++ lit "1. Setup phase" ++ nl in
  let doc := doc ++ lit "2. Core implementation" ++ nl in
  let doc := doc ++ lit "3. Testing phase" ++ nl in
  let doc := doc ++ lit "4. Documentation" ++ nl in
  ret doc.

Definition execute (self : Self)
  (task_description research_summary : str) : M PlanResult :=
  print (nl ++ lit "📋 Plan Agent: " ++ task_description) ;;
  print rule ;;
  print (nl ++ lit "🔨 Breaking down into tasks...") ;;
  let* tasks := _break_into_tasks self task_description research_summary in
  print (nl ++ lit "🔗 Identifying dependencies...") ;;
  let dependencies := _identify_dependencies tasks in
  print (nl ++ lit "⏱️  Estimating complexity...") ;;
  let* cx := _estimate_complexity tasks in
  let* full_plan :=
    _create_plan_document task_description tasks dependencies cx in
  let* filepath :=
    save_full_output self (lit "plan") task_description full_plan in
  let summary := ContextFirewall.create_summary full_plan 2000 in
  ret (mkPlanResult summary filepath (length tasks) (total_hours cx) false).

End Methods.
End PlanAgent.

Import PlanAgent.

(** ** Phase 3: ImplementAgent *)

Record ImplementResult := mkImplementResult {
  i_summary : str;
  i_full_document : str;
  i_files_created : nat;
  i_commits : nat;
  i_worktree_path : str
}.

(** [for i, x in enumerate(xs, i): doc += f"{i}. {x}\n"] *)
Fixpoint add_numbered (i : nat) (xs : list str) (doc : str) : str :=
  match xs with
  | [] => doc
  | x :: rest =>
    add_numbered (S i) rest (doc ++ str_of_nat i ++ lit ". " ++ x ++ nl)
  end.

Module ImplementAgent.
Section Methods.
Context `{Platform}.

Definition _setup_environment (worktree_path : str) : M unit :=
  print (lit "   Environment ready in " ++ worktree_path).

Definition _implement_features (worktree_path plan_summary : str)
  : list str :=
  [lit "src/main.py"; lit "src/utils.py"; lit "tests/test_main.py"].

Definition _commit_changes (worktree_path : str) (files : list str)
  : list str :=
  map (fun file => lit "Add " ++ file) files.

Definition _create_implementation_report (task_description : str)
  (files commits : list str) : str :=
  let doc := lit "# Implementation Report: " ++ task_description ++
             nl ++ nl in
  let doc := doc ++ lit "## Files Created (" ++
             str_of_nat (length files) ++ lit ")" ++ nl ++ nl in
  let doc := add_lines (fun file => lit "- " ++ file ++ nl) files doc in
  let doc := doc ++ nl ++ lit "## Commits (" ++
             str_of_nat (length commits) ++ lit ")" ++ nl ++ nl in
  let doc := add_numbered 1 commits doc in
  let doc := doc ++ nl ++ lit "## Next Steps" ++ nl ++ nl in
  let doc := doc ++ lit "- Run validation tests" ++ nl in
  let doc := doc ++ lit "- Review code quality" ++ nl in
  let doc := doc ++ lit "- Check for security issues" ++ nl in
  doc.

Definition execute (self : Self)
  (worktree_path plan_summary task_description : str)
  : M ImplementResult :=
  print (nl ++ lit "💻 Implement Agent: " ++ task_description) ;;
  print rule ;;
  print (lit "   Working in: " ++ worktree_path) ;;
  print (nl ++ lit "🔧 Setting up environment...") ;;
  _setup_environment worktree_path ;;
  print (nl ++ lit "✍️  Implementing features...") ;;
  let files_created := _implement_features worktree_path plan_summary in
  print (nl ++ lit "📝 Committing changes...") ;;
  let commits := _commit_changes worktree_path files_created in
  let full_report :=
    _create_implementation_report task_description files_created commits in
  let* filepath :=
    save_full_output self (lit "implement") task_description full_report in
  let summary := ContextFirewall.create_summary full_report 2000 in
  ret (mkImplementResult summary filepath (length files_created)
         (length commits) worktree_path).

End Methods.
End ImplementAgent.

Import ImplementAgent.

(** ** Phase 4: ValidateAgent *)

Record UnitTests := mkUnit {
  u_passed : bool; u_total : Z; u_failed : Z; u_coverage : str
}.

Record IntegrationTests := mkIntegration {
  n_passed : bool; n_total : Z; n_failed : Z
}.

Record Quality := mkQuality {
  q_passed : bool; q_issues : Z; q_warnings : Z
}.

Record Security := mkSecurity {
  s_passed : bool; s_vulnerabilities : Z; s_severity : str
}.

Record ValidateResult := mkValidateResult {
  v_summary : str;
  v_full_document : str;
  v_all_passed : bool;
  v_unit : UnitTests;
  v_integration : IntegrationTests;
  v_quality : Quality;
  v_security : Security
}.

Module ValidateAgent.
Section Methods.
Context `{Platform}.

Definition _run_unit_tests (worktree_path : str) : UnitTests :=
  mkUnit true 15 0 (lit "85%").

Definition _run_integration_tests (worktree_path : str)
  : IntegrationTests :=
  mkIntegration true 8 0.

Definition _check_code_quality (worktree_path : str) : Quality :=
  mkQuality true 0 2.

Definition _security_scan (worktree_path : str) : Security :=
  mkSecurity true 0 (lit "none").

Definition status (passed : bool) : str :=
  if passed then lit "✅ PASSED" else lit "❌ FAILED".

Definition _create_validation_report (task_description : str)
  (unit : UnitTests) (integration : IntegrationTests)
  (quality : Quality) (security : Security) : str :=
  let doc := lit "# Validation Report: " ++ task_description ++ nl ++ nl in
  let doc := doc ++ lit "## Unit Tests" ++ nl in
  let doc := doc ++ lit "- Status: " ++ status (u_passed unit) ++ nl in
  let doc := doc ++ lit "- Total: " ++ str_of_Z (u_total unit) ++ nl in
  let doc := doc ++ lit "- Failed: " ++ str_of_Z (u_failed unit) ++ nl in
  let doc := doc ++ lit "- Coverage: " ++ u_coverage unit ++ nl ++ nl in
  let doc := doc ++ lit "## Integration Tests" ++ nl in
  let doc := doc ++ lit "- Status: " ++ status (n_passed integration) ++ nl in
  let doc := doc ++ lit "- Total: " ++ str_of_Z (n_total integration) ++ nl in
  let doc := doc ++ lit "- Failed: " ++ str_of_Z (n_failed integration) ++
             nl ++ nl in
  let doc := doc ++ lit "## Code Quality" ++ nl in
  let doc := doc ++ lit "- Status: " ++ status (q_passed quality) ++ nl in
  let doc := doc ++ lit "- Issues: " ++ str_of_Z (q_issues quality) ++ nl in
  let doc := doc ++ lit "- Warnings: " ++ str_of_Z (q_warnings quality) ++
             nl ++ nl in
  let doc := doc ++ lit "## Security Scan" ++ nl in
  let doc := doc ++ lit "- Status: " ++ status (s_passed security) ++ nl in
  let doc := doc ++ lit "- Vulnerabilities: " ++
             str_of_Z (s_vulnerabilities security) ++ nl in
  let doc := doc ++ lit "- Severity: " ++ s_severity security ++ nl ++ nl in
  let all_passed := u_passed unit && n_passed integration &&
                    q_passed quality && s_passed security in
  let doc := doc ++ lit "## Overall Result" ++ nl in
  let doc := doc ++
    (if all_passed then lit "✅ ALL CHECKS PASSED - Ready for integration"
     else lit "❌ SOME CHECKS FAILED - Fix issues before merging") ++ nl in
  doc.

Definition execute (self : Self)
  (worktree_path task_description : str) : M ValidateResult :=
  print (nl ++ lit "✅ Validate Agent: " ++ task_description) ;;
  print rule ;;
  print (lit "   Testing in: " ++ worktree_path) ;;
  print (nl ++ lit "🧪 Running unit tests...") ;;
  let unit_results := _run_unit_tests worktree_path in
  print (nl ++ lit "🔗 Running integration tests...") ;;
  let integration_results := _run_integration_tests worktree_path in
  print (nl ++ lit "📊 Checking code quality...") ;;
  let quality_results := _check_code_quality worktree_path in
  print (nl ++ lit "🔒 Running security scan...") ;;
  let security_results := _security_scan worktree_path in
  let full_report :=
    _create_validation_report task_description unit_results
      integration_results quality_results security_results in
  let* filepath :=
    save_full_output self (lit "validate") task_description full_report in
  let summary := ContextFirewall.create_summary full_report 2000 in
  let all_passed :=
    u_passed unit_results && n_passed integration_results &&
    q_passed quality_results && s_passed security_results in
  ret (mkValidateResult summary filepath all_passed unit_results
         integration_results quality_results security_results).

End Methods.
End ValidateAgent.

Import ValidateAgent.

(** ** AutoFlowOrchestrator *)

(** [f"{x}"] for an optional string: [None] prints as [None]. *)
Definition str_of_option (o : option str) : str := default (lit "None") o.

Module AutoFlowOrchestrator.
Section Methods.
Context `{Platform}.

Definition banner (title : str) : M unit :=
  print (nl ++ rule) ;;
  print title ;;
  print rule.

Definition _phase_1_research (self : Self) (task_description : str)
  : M (option str) :=
  emit (EvPhase Research) ;;
  banner (lit "📚 PHASE 1: RESEARCH") ;;
  let* issue_number :=
    create_issue (lit "[RESEARCH] " ++ task_description)
      (lit "Research patterns and examples for: " ++ task_description)
      [lit "phase:research"; lit "status:in-progress"] in
  print (nl ++ lit "✅ Created issue #" ++ str_of_option issue_number) ;;
  emit (EvAgent Research) ;;
  let* result :=
    ResearchAgent.execute self task_description
      [lit "kb"; lit "code"; lit "docs"] in
  let* approved :=
    request_approval (lit "Research Complete")
      [(lit "Summary", VStr (r_summary result));
       (lit "Findings",
        VStr (str_of_nat (r_findings_count result) ++
              lit " patterns/examples found"));
       (lit "Recommendation", VStr (r_recommendation result));
       (lit "Full Document", VStr (r_full_document result))] in
  emit (EvDecision Research approved) ;;
  if negb approved then
    print (lit "❌ Research not approved. Stopping workflow.") ;;
    sys_exit 1
  else
    comment_issue issue_number
      (lit "**Research Complete**" ++ nl ++ nl ++ r_summary result) ;;
    close_issue issue_number ;;
    ret issue_number.

Definition _phase_2_plan (self : Self) (task_description : str)
  (research_issue : option str) : M (option str) :=
  emit (EvPhase Plan) ;;
  banner (lit "📋 PHASE 2: PLAN") ;;
  let* issue_number :=
    create_issue (lit "[PLAN] " ++ task_description)
      (lit "Create implementation plan for: " ++ task_description)
      [lit "phase:plan"; lit "status:in-progress"] in
  print (nl ++ lit "✅ Created issue #" ++ str_of_option issue_number) ;;
  let research_summary := lit "Research completed successfully" in
  emit (EvAgent Plan) ;;
  let* result := PlanAgent.execute self task_description research_summary in
  let* approved :=
    request_approval (lit "Plan Review")
      [(lit "Summary", VStr (pl_summary result));
       (lit "Tasks",
        VStr (str_of_nat (pl_task_count result) ++ lit " tasks identified"));
       (lit "Estimated Time",
        VStr (str_of_number (pl_estimated_hours result) ++ lit " hours"));
       (lit "Full Document", VStr (pl_full_document result))] in
  emit (EvDecision Plan approved) ;;
  if negb approved then
    print (lit "❌ Plan not approved. Stopping workflow.") ;;
    sys_exit 1
  else
    comment_issue issue_number
      (lit "**Plan Complete**" ++ nl ++ nl ++ pl_summary result) ;;
    close_issue issue_number ;;
    ret issue_number.

(** The result is a dict: empty when no worktree could be created. *)
Definition _phase_3_implement (self : Self) (task_description : str)
  (plan_issue : option str) : M (gmap string value) :=
  emit (EvPhase Implement) ;;
  banner (lit "💻 PHASE 3: IMPLEMENT") ;;
  let branch_name :=
    lit "implement-" ++ replace_char 32 45 (lower task_description) in
  let* worktree_path := create_worktree self branch_name plan_issue in
  match worktree_path with
  | None =>
    print (lit "❌ Failed to create worktree") ;;
    ret ∅
  | Some worktree_path =>
    let plan_summary := lit "Plan created successfully" in
    emit (EvAgent Implement) ;;
    let* result :=
      ImplementAgent.execute self worktree_path plan_summary task_description in
    let* approved :=
      request_approval (lit "Code Review")
        [(lit "Summary", VStr (i_summary result));
         (lit "Files Created", VInt (Z.of_nat (i_files_created result)));
         (lit "Commits", VInt (Z.of_nat (i_commits result)));
         (lit "Full Document", VStr (i_full_document result))] in
    emit (EvDecision Implement approved) ;;
    if negb approved then
      print (lit "❌ Implementation not approved. Stopping workflow.") ;;
      sys_exit 1
    else
      ret (<["branch" := VStr branch_name]>
           (<["worktree" := VStr worktree_path]>
            (<["commits" := VInt (Z.of_nat (i_commits result))]> ∅)))
  end.

Definition _phase_4_validate (self : Self)
  (implement_result : gmap string value) : M ValidateResult :=
  emit (EvPhase Validate) ;;
  banner (lit "✅ PHASE 4: VALIDATE") ;;
  (* [Path(implement_result["worktree"])]: the value was written by
     phase 3 as [str(worktree_path)], which [Path] reads back unchanged *)
  let* worktree_path :=
    match implement_result !! "worktree" with
    | Some (VStr path) => ret path
    | Some (VInt _) => raise TypeError
    | None => raise (KeyError "worktree")
    end in
  let task_description := lit "validation" in
  emit (EvAgent Validate) ;;
  let* result := ValidateAgent.execute self worktree_path task_description in
  let* approved :=
    request_approval (lit "Validation Review")
      [(lit "Summary", VStr (v_summary result));
       (lit "All Tests Passed",
        VStr (if v_all_passed result then lit "✅ Yes" else lit "❌ No"));
       (lit "Unit Tests",
        VStr (str_of_Z (u_total (v_unit result)) ++ lit " tests, " ++
              u_coverage (v_unit result) ++ lit " coverage"));
       (lit "Integration Tests",
        VStr (str_of_Z (n_total (v_integration result)) ++ lit " tests"));
       (lit "Security",
        VStr (str_of_Z (s_vulnerabilities (v_security result)) ++
              lit " vulnerabilities"));
       (lit "Full Document", VStr (v_full_document result))] in
  emit (EvDecision Validate approved) ;;
  if negb approved then
    print (lit "❌ Validation not approved. Stopping workflow.") ;;
    sys_exit 1
  else ret result.

Definition _phase_5_integrate (self : Self)
  (implement_result : gmap string value) (validate_result : ValidateResult)
  : M unit :=
  emit (EvPhase Integrate) ;;
  banner (lit "🔀 PHASE 5: INTEGRATE") ;;
  match implement_result !! "branch" with
  | Some (VStr []) | Some (VInt 0) | None => ret tt
  | Some (VStr branch_name) =>
    emit (EvAgent Integrate) ;;
    merge_worktree self branch_name ;;
    ret tt
  | Some (VInt _) => raise TypeError
  end ;;
  print (nl ++ lit "✅ Integration complete!").

Definition run_workflow (self : Self) (task_description : str) : M unit :=
  banner (lit "🚀 AutoFlow - Git-Native Workflow System") ;;
  print (nl ++ lit "Task: " ++ task_description) ;;
  let* research_issue := _phase_1_research self task_description in
  let* plan_issue := _phase_2_plan self task_description research_issue in
  let* implement_result :=
    _phase_3_implement self task_description plan_issue in
  let* validate_result := _phase_4_validate self implement_result in
  _phase_5_integrate self implement_result validate_result ;;
  print (nl ++ lit "✅ Workflow complete!").

End Methods.
End AutoFlowOrchestrator.

Import AutoFlowOrchestrator.

(** ** A reference platform

    A small executable world on which the model can be run: an
    in-memory file system and repository whose git refuses to add an
    existing worktree or branch, reports a conflict for the branches in
    [conflicting], and refuses to delete a branch that was not merged. *)

Module Sim.

Record World := mkWorld {
  dirs : gset (list N);
  branches : gset (list N);
  conflicting : gset (list N);
  merged : gset (list N);
  written : list (str * str);
  issues : nat;
  ticks : nat;
  service : str + str
}.

Definition set_repo (w : World) (d b m : gset (list N)) : World :=
  mkWorld d b (conflicting w) m (written w) (issues w) (ticks w) (service w).

Definition eqs (s : string) (x : str) : bool := str_eqb (lit s) x.

Definition git (args : list str) (w : World) : World * option (Z * str) :=
  match args with
  | [a; b; path; c; branch] =>
    if eqs "worktree" a && eqs "add" b && eqs "-b" c then
      if bool_decide (path ∈ dirs w) || bool_decide (branch ∈ branches w)
      then (w, Some (128%Z, []))
      else (set_repo w ({[path]} ∪ dirs w) ({[branch]} ∪ branches w)
              (merged w), Some (0%Z, []))
    else (w, Some (1%Z, []))
  | [a; b] =>
    if eqs "checkout" a then (w, Some (0%Z, []))
    else if eqs "branch" a then (w, Some (1%Z, []))
    else (w, Some (1%Z, []))
  | [a; b; c] =>
    if eqs "merge" a && eqs "--no-ff" b then
      if bool_decide (c ∈ conflicting w) then (w, Some (1%Z, []))
      else (set_repo w (dirs w) (branches w) ({[c]} ∪ merged w),
            Some (0%Z, []))
    else if eqs "worktree" a && eqs "remove" b then
      if bool_decide (c ∈ dirs w)
      then (set_repo w (dirs w ∖ {[c]}) (branches w) (merged w),
            Some (0%Z, []))
      else (w, Some (128%Z, []))
    else if eqs "branch" a && eqs "-d" b then
      if bool_decide (c ∈ merged w)
      then (set_repo w (dirs w) (branches w ∖ {[c]}) (merged w),
            Some (0%Z, []))
      else (w, Some (1%Z, []))
    else (w, Some (1%Z, []))
  | _ => (w, Some (1%Z, []))
  end.

Definition gh (args : list str) (w : World) : World * option (Z * str) :=
  match args with
  | a :: b :: _ =>
    if eqs "issue" a && eqs "create" b then
      let n := S (issues w) in
      (mkWorld (dirs w) (branches w) (conflicting w) (merged w)
         (written w) n (ticks w) (service w),
       Some (0%Z, lit "https://github.com/o/r/issues/" ++ str_of_nat n ++ nl))
    else (w, Some (0%Z, []))
  | _ => (w, Some (1%Z, []))
  end.

Definition exec (argv : list str) (cwd : option str) (w : World)
  : World * option (Z * str) :=
  match argv with
  | prog :: args =>
    if eqs "git" prog then git args w
    else if eqs "gh" prog then gh args w
    else (w, None)
  | [] => (w, None)
  end.

Definition join_path (a b : str) : str :=
  if startswith (lit "/") b then b else a ++ lit "/" ++ b.

Definition store (path content : str) (w : World) : World * bool :=
  (mkWorld (dirs w) (branches w) (conflicting w) (merged w)
     ((path, content) :: written w) (issues w) (ticks w) (service w), true).

Definition clock (w : World) : World * str :=
  (mkWorld (dirs w) (branches w) (conflicting w) (merged w)
     (written w) (issues w) (S (ticks w)) (service w),
   lit "20250101-1200" ++ str_of_nat (10 + ticks w)).

(** ASCII letters only. *)
Definition ascii_lower (s : str) : str :=
  map (fun c => if (65 <=? c) && (c <=? 90) then c + 32 else c) s.

Definition dumps (j : json) : str := lit "[...]".

Definition loads (text : str) : str + list json :=
  if str_eqb text (lit "[]") then inr []
  else inl (lit "Expecting value").

(** The reference platform does no float arithmetic: every int converts,
    a total with floats in it prints as [nan] and compares as such. *)
Definition to_float (z : Z) : option str := Some (str_of_Z z ++ lit ".0").

Definition nan_sum (start : Z) (later : list number) : str := lit "nan".

Definition nan_lt (x : str) (z : Z) : bool := false.

Definition repr (j : json) : str := lit "[...]".

#[export] Instance platform : Platform := {|
  Ext := World;
  subprocess_run := exec;
  path_exists := fun p w => bool_decide (p ∈ dirs w);
  path_join := join_path;
  write_text := store;
  strftime_now := clock;
  messages_create := fun _ _ _ w => (w, service w);
  lower := ascii_lower;
  json_dumps := dumps;
  json_loads := loads;
  float_of_int := to_float;
  float_sum := nan_sum;
  float_lt := nan_lt;
  json_repr := repr
|}.

Definition self : Self := mkSelf (lit "/repo") true.

Definition world (svc : str + str) : World :=
  mkWorld ∅ ∅ ∅ ∅ [] 0 0 svc.

(** A repository in which the worktree of [branch] is checked out;
    merging it conflicts when [conflict] is set. *)
Definition checked_out (branch : str) (conflict : bool) : World :=
  mkWorld {[join_path (lit "/repo/worktrees") branch]} {[branch]}
    (if conflict then {[branch]} else ∅) ∅ [] 0 0 (inr (lit "down")).

(** A fresh process: nothing done yet, [input] lines pending on stdin. *)
Definition start (w : World) (input : list str) : State :=
  mkState w input [].

End Sim.


(** ** Vocabulary of the properties *)

Definition is_digit (c : N) : bool := (48 <=? c) && (c <=? 57).

(** A structured point as the comment of [create_summary] words it: a
    line starting with [-], [*] or a number. *)
Definition spec_structured_point (l : str) : bool :=
  match strip l with
  | c :: _ => (c =? 45) || (c =? 42) || is_digit c
  | [] => false
  end.

(** The marks of a trace: phase entries, agent calls and decisions. *)
Definition is_mark (e : Event) : bool :=
  match e with
  | EvPhase _ | EvAgent _ | EvDecision _ _ => true
  | _ => false
  end.

Definition marks (tr : list Event) : list Event := List.filter is_mark tr.

Definition next_phase (p : Phase) : option Phase :=
  match p with
  | Research => Some Plan
  | Plan => Some Implement
  | Implement => Some Validate
  | Validate => Some Integrate
  | Integrate => None
  end.

(** The answers [request_approval] acts on. *)
Definition approves (response : str) : bool :=
  member response [lit "yes"; lit "y"].

Definition rejects (response : str) : bool :=
  member response [lit "no"; lit "n"].

Definition modifies (response : str) : bool :=
  member response [lit "modify"; lit "m"].

Definition recognised (response : str) : bool :=
  approves response || rejects response || modifies response.

(** A report used to exercise [create_summary]. *)
Definition sample_report : str :=
  lit "# Report" ++ nl ++ lit "- first" ++ nl ++ lit "plain" ++ nl ++
  lit "  2. second".

(** A computation is quiet when it leaves no mark in the trace. *)
Definition quiet `{Platform} {A} (m : M A) : Prop :=
  forall st, marks (trace (snd (m st))) = marks (trace st).

(** The number of times the approval prompt was written. *)
Definition prompts (tr : list Event) : nat :=
  length (List.filter (fun e => match e with EvPrompt _ => true | _ => false end) tr).

(** An answer none of the branches of [request_approval] acts on. *)
Definition unrecognised `{Platform} (line : str) : Prop :=
  recognised (lower line) = false.

(** [post m st Q]: running [m] from [st] adds the marks [ms] to the
    trace and ends in an outcome [o] such that [Q o ms]. *)
Definition post `{Platform} {A} (m : M A) (st : State)
  (Q : Res A -> list Event -> Prop) : Prop :=
  exists ms,
    marks (trace (snd (m st))) = marks (trace st) ++ ms /\ Q (fst (m st)) ms.

Definition phase_eqb (p q : Phase) : bool :=
  match p, q with
  | Research, Research | Plan, Plan | Implement, Implement
  | Validate, Validate | Integrate, Integrate => true
  | _, _ => false
  end.

(** [e] is the approval of phase [p]. *)
Definition is_approval (p : Phase) (e : Event) : bool :=
  match e with
  | EvDecision p' true => phase_eqb p p'
  | _ => false
  end.

(** The agent of [q] may be called after the events [seen]: the phase
    before [q], when there is one, was approved. *)
Definition may_call (seen : list Event) (q : Phase) : bool :=
  forallb (fun p =>
             match next_phase p with
             | Some q' => negb (phase_eqb q' q) || existsb (is_approval p) seen
             | None => true
             end)
          [Research; Plan; Implement; Validate; Integrate].

(** Every agent call in [ms] comes after the approval of the phase
    before, [seen] being what happened earlier. *)
Fixpoint gatedb (seen ms : list Event) : bool :=
  match ms with
  | [] => true
  | e :: r =>
    match e with
    | EvAgent q => may_call seen q
    | _ => true
    end && gatedb (e :: seen) r
  end.

Definition is_exit_1 {A} (o : Res A) : bool :=
  match o with
  | SysExit c => (c =? 1)%Z
  | _ => false
  end.

(** A rejection among the marks [ms] is the last mark and the outcome is
    [sys.exit(1)]. *)
Fixpoint haltedb {A} (o : Res A) (ms : list Event) : bool :=
  match ms with
  | [] => true
  | EvDecision _ false :: r =>
    is_exit_1 o && match r with [] => true | _ => false end
  | _ :: r => haltedb o r
  end.

Definition gate_ok {A} (o : Res A) (ms : list Event) : Prop :=
  gatedb [] ms && haltedb o ms = true.

(** The number of calls of the Claude service. *)
Definition claude_calls (tr : list Event) : nat :=
  length (List.filter (fun e => match e with EvClaude _ => true | _ => false end) tr).

(** ** A second reference platform

    The reference platform with three faults that can be switched on:
    [gh] fails, the clock stands still, and the decoder of the service's
    answer yields [decoded]. *)

Module Faulty.

Definition exec (gh_fails : bool) (argv : list str) (cwd : option str)
  (w : Sim.World) : Sim.World * option (Z * str) :=
  match argv with
  | prog :: _ =>
    if gh_fails && Sim.eqs "gh" prog then (w, Some (1%Z, []))
    else Sim.exec argv cwd w
  | [] => Sim.exec argv cwd w
  end.

Definition clock (frozen : bool) (w : Sim.World) : Sim.World * str :=
  if frozen then (w, lit "20250101-120000") else Sim.clock w.

Definition platform (gh_fails frozen : bool) (decoded : str + list json)
  : Platform := {|
  Ext := Sim.World;
  subprocess_run := exec gh_fails;
  path_exists := fun p w => bool_decide (p ∈ Sim.dirs w);
  path_join := Sim.join_path;
  write_text := Sim.store;
  strftime_now := clock frozen;
  messages_create := fun _ _ _ w => (w, Sim.service w);
  lower := Sim.ascii_lower;
  json_dumps := Sim.dumps;
  json_loads := fun _ => decoded;
  float_of_int := Sim.to_float;
  float_sum := Sim.nan_sum;
  float_lt := Sim.nan_lt;
  json_repr := Sim.repr
|}.

End Faulty.

(** The hours of a task that is a dict with an int under [hours], a
    bool counting as 1 or 0. *)
Definition int_hours (task : json) : option Z :=
  match task with
  | JDict fields =>
    match dict_get fields (lit "hours") with
    | Some (JInt z) => Some z
    | Some (JBool b) => Some (Z.b2z b)
    | _ => None
    end
  | _ => None
  end.

(** The exception a task makes the sum of the hours end with, if any:
    the task is no dict, it has no [hours], or they are no number. *)
Definition hours_error (task : json) : option Exn :=
  match task with
  | JDict fields =>
    match dict_get fields (lit "hours") with
    | None => Some (KeyError "hours")
    | Some (JInt _) | Some (JBool _) | Some (JFloat _) => None
    | Some _ => Some TypeError
    end
  | _ => Some TypeError
  end.

(** [sum] of a list of ints *)
Definition total_of (hours : list Z) : Z := fold_right Z.add 0%Z hours.

(** The marks of a run that goes through all five phases. *)
Definition complete_marks : list Event :=
  [EvPhase Research; EvAgent Research; EvDecision Research true;
   EvPhase Plan; EvAgent Plan; EvDecision Plan true;
   EvPhase Implement; EvAgent Implement; EvDecision Implement true;
   EvPhase Validate; EvAgent Validate; EvDecision Validate true;
   EvPhase Integrate; EvAgent Integrate].

(** The outcome [o] of a run with marks [ms] is a normal return only
    when the marks are those of a complete run. *)
Definition completes {A} (o : Res A) (ms : list Event) : Prop :=
  (exists a, o = Ok a) -> ms = complete_marks.

Definition is_phase (p : Phase) (e : Event) : bool :=
  match e with
  | EvPhase q => phase_eqb p q
  | _ => false
  end.

Definition is_agent (p : Phase) (e : Event) : bool :=
  match e with
  | EvAgent q => phase_eqb p q
  | _ => false
  end.

Definition is_key_error {A} (key : string) (o : Res A) : bool :=
  match o with
  | Raise (KeyError k) => String.eqb k key
  | _ => false
  end.

(** When the marks [ms] show the Validate phase entered without an
    approved implementation, the outcome is [KeyError('worktree')] and
    the validation agent was not called. *)
Definition crashes_without_worktree {A} (o : Res A) (ms : list Event)
  : Prop :=
  (if existsb (is_phase Validate) ms
      && negb (existsb (is_approval Implement) ms)
   then is_key_error "worktree" o && negb (existsb (is_agent Validate) ms)
   else true) = true.

(** A computation is mute when it does not call the Claude service, and
    makes at most [n] calls when the count of calls grows by at most
    [n]. *)
Definition mute `{Platform} {A} (m : M A) : Prop :=
  forall st, claude_calls (trace (snd (m st))) = claude_calls (trace st).


(** The plan document of the default task list, after its title line. *)
Definition default_plan_body : str :=
  nl ++
  lit "## Overview" ++ nl ++ nl ++
  lit "- **Total Tasks**: 6" ++ nl ++
  lit "- **Estimated Time**: 13 hours" ++ nl ++
  lit "- **Complexity**: high" ++ nl ++
  lit "- **Track**: enterprise" ++ nl ++ nl ++
  lit "## Tasks Breakdown" ++ nl ++ nl ++
  lit "1. **Set up project structure** (setup) - 1h" ++ nl ++
  lit "2. **Implement core functionality** (implementation) - 4h" ++ nl ++
  lit "3. **Add error handling** (implementation) - 2h" ++ nl ++
  lit "4. **Write unit tests** (testing) - 3h" ++ nl ++
  lit "5. **Write integration tests** (testing) - 2h" ++ nl ++
  lit "6. **Update documentation** (documentation) - 1h" ++ nl ++ nl ++
  lit "## Dependencies" ++ nl ++ nl ++
  lit "- Set up project structure → Implement core functionality" ++ nl ++
  lit "- Implement core functionality → Add error handling" ++ nl ++
  lit "- Add error handling → Write unit tests" ++ nl ++ nl ++
  lit "## Implementation Order" ++ nl ++ nl ++
  lit "1. Setup phase" ++ nl ++
  lit "2. Core implementation" ++ nl ++
  lit "3. Testing phase" ++ nl ++
  lit "4. Documentation" ++ nl.

(** The summary made of that document. *)
Definition default_plan_summary : str :=
  lit "SUMMARY (13 key points):" ++ nl ++ nl ++
  lit "- **Total Tasks**: 6" ++ nl ++
  lit "- **Estimated Time**: 13 hours" ++ nl ++
  lit "- **Complexity**: high" ++ nl ++
  lit "- **Track**: enterprise" ++ nl ++
  lit "1. **Set up project structure** (setup) - 1h" ++ nl ++
  lit "2. **Implement core functionality** (implementation) - 4h" ++ nl ++
  lit "3. **Add error handling** (implementation) - 2h" ++ nl ++
  lit "- Set up project structure → Implement core functionality" ++ nl ++
  lit "- Implement core functionality → Add error handling" ++ nl ++
  lit "- Add error handling → Write unit tests" ++ nl ++
  lit "1. Setup phase" ++ nl ++
  lit "2. Core implementation" ++ nl ++
  lit "3. Testing phase".

(** How a phase [p] that holds no issue ends, [ms] being its marks.  Its
    agent is called; then either the checkpoint returned an approval and
    commenting the issue raised a [TypeError], or it returned a
    rejection and the process exited with status 1, or no decision was
    taken because the agent or the checkpoint did not return. *)
Definition ends_without_issue {A} (p : Phase) (o : Res A) (ms : list Event)
  : Prop :=
  (ms = [EvPhase p; EvAgent p; EvDecision p true] /\ o = Raise TypeError) \/
  (ms = [EvPhase p; EvAgent p; EvDecision p false] /\ o = SysExit 1) \/
  (ms = [EvPhase p; EvAgent p] /\ forall v, o <> Ok v).

(** The path [save_full_output] gives to the archive of the output of an
    agent for a phase, [timestamp] being the reading of the clock. *)
Definition archive_path `{Platform} (self : Self)
  (agent_name phase timestamp : str) : str :=
  path_join (firewall_dir self)
    (agent_name ++ lit "-" ++ phase ++ lit "-" ++ timestamp ++ lit ".md").

(** A computation only appends to the trace. *)
Definition appends `{Platform} {A} (m : M A) : Prop :=
  forall st, exists evs, trace (snd (m st)) = trace st ++ evs.

(** The trace [tr0] has grown into [tr] by the events [core], in this
    order and next to each other, and later on by the prompt of a
    checkpoint; no other event added is a call of the Claude service. *)
Definition continues_to_checkpoint (tr0 tr core : list Event) : Prop :=
  exists pre mid post,
    tr = tr0 ++ pre ++ core ++ mid ++ EvPrompt approval_prompt :: post /\
    claude_calls (pre ++ mid ++ post) = 0%nat.

(** * Properties *)

(** ** Strings *)

Lemma split_no_sep (sep : N) (s : str) :
  ~ In sep s -> split sep s = [s].
Proof.
  induction s as [|c r IH]; intros Hn; [reflexivity|].
  cbn [split]. destruct (N.eqb_spec c sep) as [->|Hc].
  - exfalso. apply Hn. now left.
  - rewrite IH; [reflexivity|]. intros Hin. apply Hn. now right.
Qed.

Lemma lstrip_snoc (l : str) (c : N) :
  isspace c = false -> exists l', lstrip (l ++ [c]) = l' ++ [c].
Proof.
  intros Hc. induction l as [|x l IH]; cbn [lstrip app].
  - rewrite Hc. now exists [].
  - destruct (isspace x); [exact IH|]. now exists (x :: l).
Qed.

(** Stripping keeps a first character that is not white space. *)
Lemma strip_head (c : N) (r : str) :
  isspace c = false -> exists r', strip (c :: r) = c :: r'.
Proof.
  intros Hc. unfold strip, rstrip. cbn [lstrip]. rewrite Hc.
  cbn [rev]. destruct (lstrip_snoc (rev r) c Hc) as [l' ->].
  rewrite rev_app_distr. cbn. now exists (rev l').
Qed.

Lemma length_firstn_le {A} (n : nat) (l : list A) :
  (length (firstn n l) <= n)%nat.
Proof. rewrite length_firstn. lia. Qed.


Lemma length_slice_to (s : str) (n : Z) :
  (0 <= n)%Z -> (Z.of_nat (length (slice_to s n)) <= n)%Z.
Proof.
  intros Hn. unfold slice_to.
  destruct (Z.leb_spec 0 n); [|lia].
  pose proof (length_firstn_le (Z.to_nat n) s). lia.
Qed.

Lemma length_truncation_marker :
  length ContextFirewall.truncation_marker = 16%nat.
Proof. reflexivity. Qed.

Lemma header_0 :
  ContextFirewall.header 0 = lit "SUMMARY (0 key points):" ++ nl ++ nl.
Proof. reflexivity. Qed.

(** ** ContextFirewall.create_summary *)

Section Summary.
Import ContextFirewall.

(** The text before the budget is applied. *)
Lemma create_summary_fits (content : str) (max_tokens : Z) :
  let key_points := key_points_of content in
  let summary := header (length key_points) ++ join nl (firstn 20 key_points) in
  (Z.of_nat (length summary) <= max_tokens * 4)%Z ->
  create_summary content max_tokens = summary.
Proof.
  intros key_points summary Hfit. unfold create_summary.
  fold (key_points_of content). fold key_points. fold summary.
  destruct (Z.gtb_spec (Z.of_nat (length summary)) (max_tokens * 4));
    [lia|reflexivity].
Qed.

Lemma create_summary_cut (content : str) (max_tokens : Z) :
  let key_points := key_points_of content in
  let summary := header (length key_points) ++ join nl (firstn 20 key_points) in
  (Z.of_nat (length summary) > max_tokens * 4)%Z ->
  create_summary content max_tokens =
  slice_to summary (max_tokens * 4) ++ truncation_marker.
Proof.
  intros key_points summary Hcut. unfold create_summary.
  fold (key_points_of content). fold key_points. fold summary.
  destruct (Z.gtb_spec (Z.of_nat (length summary)) (max_tokens * 4));
    [reflexivity|lia].
Qed.

(** C3, as amended: for every content and every non-negative budget
    [max_tokens], the summary has at most [4 * max_tokens + 16]
    characters: four characters per token, plus the 16 characters of the
    truncation marker. *)
Theorem create_summary_length_bound (content : str) (max_tokens : Z) :
  (0 <= max_tokens)%Z ->
  (Z.of_nat (length (create_summary content max_tokens))
   <= 4 * max_tokens + 16)%Z.
Proof.
  intros Hb.
  set (kp := key_points_of content).
  set (summary := header (length kp) ++ join nl (firstn 20 kp)).
  destruct (Z_le_gt_dec (Z.of_nat (length summary)) (max_tokens * 4))
    as [Hfit|Hcut].
  - rewrite (create_summary_fits content max_tokens Hfit).
    fold kp summary. lia.
  - rewrite (create_summary_cut content max_tokens Hcut).
    fold kp summary. rewrite length_app, length_truncation_marker.
    pose proof (length_slice_to summary (max_tokens * 4)). lia.
Qed.

Lemma create_summary_length_bound_witness :
  (0 <= 2000)%Z /\
  (Z.of_nat (length (create_summary (lit "- a") 2000)) <= 4 * 2000 + 16)%Z.
Proof.
  split; [lia|]. apply (create_summary_length_bound (lit "- a") 2000). lia.
Defined.

(** A line of [n] dashes is one key point. *)
Lemma key_points_of_dashes (n : nat) :
  key_points_of (repeat 45 (S n)) = [repeat 45 (S n)].
Proof.
  unfold key_points_of. rewrite split_no_sep.
  - cbn [List.filter]. unfold is_key_point.
    destruct (strip_head 45 (repeat 45 n) eq_refl) as [r' Hr].
    cbn [repeat]. rewrite Hr. reflexivity.
  - intros Hin. apply repeat_spec in Hin. discriminate.
Qed.

(** C3, as stated, fails: no constant overhead [k] bounds the length of
    the summary by [max_tokens + k], even for non-negative budgets; a
    line of [4 * max_tokens] dashes yields [4 * max_tokens + 16]
    characters. *)
Lemma create_summary_not_within_budget_plus_constant :
  ~ exists k : Z, forall (content : str) (max_tokens : Z),
      (0 <= max_tokens)%Z ->
      (Z.of_nat (length (create_summary content max_tokens))
       <= max_tokens + k)%Z.
Proof.
  intros [k Hk].
  set (n := S (Z.to_nat k)).
  assert (Hn : (k < Z.of_nat n)%Z) by (subst n; lia).
  assert (Hpos : (0 < n)%nat) by (subst n; lia).
  clearbody n.
  specialize (Hk (repeat 45 (4 * n)) (Z.of_nat n) ltac:(lia)).
  assert (H4 : (4 * n = S (4 * n - 1))%nat) by lia.
  rewrite create_summary_cut in Hk.
  - rewrite H4, key_points_of_dashes, <- H4 in Hk.
    cbn [length firstn join] in Hk.
    rewrite length_app, length_truncation_marker in Hk.
    unfold slice_to in Hk.
    destruct (Z.leb_spec 0 (Z.of_nat n * 4)); [|lia].
    rewrite length_firstn, length_app, repeat_length in Hk.
    change (length (header 1)) with 25%nat in Hk. lia.
  - rewrite H4, key_points_of_dashes, <- H4.
    cbn [length firstn join]. rewrite length_app, repeat_length.
    change (length (header 1)) with 25%nat. lia.
Qed.

End Summary.

Section SummaryBody.
Import ContextFirewall.

(** On a line that does not start with a digit other than 1, 2 or 3 the
    test of the code is the one its comment words. *)
Lemma is_key_point_structured (l : str) :
  (forall c r, strip l = c :: r -> is_digit c = true ->
               c = 49 \/ c = 50 \/ c = 51) ->
  is_key_point l = spec_structured_point l.
Proof.
  intros Hd. unfold is_key_point, spec_structured_point.
  destruct (strip l) as [|c r] eqn:E; [reflexivity|].
  specialize (Hd c r eq_refl).
  unfold startswith_any.
  change (lit "-") with [45]; change (lit "*") with [42];
    change (lit "1") with [49]; change (lit "2") with [50];
    change (lit "3") with [51].
  cbn [existsb startswith].
  rewrite !andb_true_r, orb_false_r, (N.eqb_sym 45 c), (N.eqb_sym 42 c).
  destruct (c =? 45) eqn:E45; [reflexivity|].
  destruct (c =? 42) eqn:E42; [reflexivity|]. cbn [orb].
  destruct (is_digit c) eqn:D.
  - destruct (Hd eq_refl) as [-> | [-> | ->]]; reflexivity.
  - unfold is_digit in D.
    destruct (N.eqb_spec 49 c) as [<-|]; [discriminate D|].
    destruct (N.eqb_spec 50 c) as [<-|]; [discriminate D|].
    destruct (N.eqb_spec 51 c) as [<-|]; [discriminate D|].
    reflexivity.
Qed.

(** C8, as amended: when no line starts with a digit other than 1, 2 or
    3 and the text fits the budget, the summary is the header followed
    by the first 20 structured-point lines (lines whose stripped text
    starts with [-], [*] or a digit), in their original order and joined
    by newlines; when there is no such line the body is empty: the
    summary is the header alone and nothing of the raw content is
    copied. *)
Theorem create_summary_body (content : str) (max_tokens : Z) :
  let points := List.filter spec_structured_point (split 10 content) in
  let summary := header (length points) ++ join nl (firstn 20 points) in
  (forall l c r, In l (split 10 content) -> strip l = c :: r ->
                 is_digit c = true -> c = 49 \/ c = 50 \/ c = 51) ->
  (Z.of_nat (length summary) <= max_tokens * 4)%Z ->
  create_summary content max_tokens = summary /\
  (points = [] -> create_summary content max_tokens = header 0).
Proof.
  intros points summary Hd Hfit.
  assert (Hkp : key_points_of content = points).
  { unfold key_points_of, points. apply filter_ext_in.
    intros l Hl. apply is_key_point_structured.
    intros c r. now apply Hd. }
  assert (Hs : create_summary content max_tokens = summary).
  { rewrite create_summary_fits; rewrite Hkp; [reflexivity|exact Hfit]. }
  split; [exact Hs|].
  intros Hnil. rewrite Hs. unfold summary. rewrite Hnil. cbn [length firstn join].
  apply app_nil_r.
Qed.

Lemma create_summary_body_witness :
  create_summary sample_report 2000 =
  lit "SUMMARY (2 key points):" ++ nl ++ nl ++
  lit "- first" ++ nl ++ lit "  2. second".
Proof.
  refine (proj1 (create_summary_body sample_report 2000 _ _)).
  - intros l c r Hin E D.
    repeat (destruct Hin as [<-|Hin];
            [vm_compute in E; injection E as <- _;
             first [discriminate D | now auto]|]).
    destruct Hin.
  - vm_compute. discriminate.
Defined.

(** C8, as stated, fails: a content without any structured-point line
    yields the header alone; no prefix of the raw content, of whatever
    positive length [M], is used as the body. *)
Lemma create_summary_no_raw_fallback :
  List.filter spec_structured_point (split 10 (lit "plain text")) = [] /\
  create_summary (lit "plain text") 2000 = header 0 /\
  forall M : nat, (0 < M)%nat ->
    create_summary (lit "plain text") 2000
    <> header 0 ++ firstn M (lit "plain text").
Proof.
  split; [reflexivity|]. split; [reflexivity|].
  intros M HM Heq.
  change (create_summary (lit "plain text") 2000) with (header 0 ++ [])
    in Heq.
  apply app_inv_head in Heq.
  destruct M; [lia|]. discriminate Heq.
Qed.

(** C9, as amended: on the empty content [create_summary] returns a
    text for every budget, and which text is settled by the budget
    alone.  For a budget of at least 7 tokens it is the header stating
    zero key points, 25 characters long.  For a budget from 0 to 6 it is
    the first [4 * max_tokens] characters of that header followed by the
    truncation marker.  For a negative budget it is the header without
    its last [- 4 * max_tokens] characters -- nothing of it from -7 down
    -- followed by the truncation marker. *)
Theorem create_summary_empty (max_tokens : Z) :
  let zero_points := lit "SUMMARY (0 key points):" ++ nl ++ nl in
  ((7 <= max_tokens)%Z ->
   create_summary [] max_tokens = zero_points) /\
  ((0 <= max_tokens < 7)%Z ->
   create_summary [] max_tokens =
   firstn (Z.to_nat (4 * max_tokens)) zero_points ++ truncation_marker) /\
  ((max_tokens < 0)%Z ->
   create_summary [] max_tokens =
   firstn (25 - Z.to_nat (- 4 * max_tokens)) zero_points ++ truncation_marker).
Proof.
  intros zero_points.
  assert (Hs : header (length (key_points_of []))
               ++ join nl (firstn 20 (key_points_of [])) = zero_points)
    by reflexivity.
  assert (Hl : length zero_points = 25%nat) by reflexivity.
  repeat split; intros Hb.
  - rewrite create_summary_fits; rewrite Hs; [reflexivity|lia].
  - rewrite create_summary_cut; rewrite Hs; [|lia].
    unfold slice_to. destruct (Z.leb_spec 0 (max_tokens * 4)); [|lia].
    now rewrite Z.mul_comm.
  - rewrite create_summary_cut; rewrite Hs; [|lia].
    unfold slice_to. destruct (Z.leb_spec 0 (max_tokens * 4)); [lia|].
    rewrite Hl. f_equal. f_equal. lia.
Qed.

Lemma create_summary_empty_witness :
  create_summary [] 2000 = lit "SUMMARY (0 key points):" ++ nl ++ nl /\
  create_summary [] 3 = lit "SUMMARY (0 k" ++ truncation_marker /\
  create_summary [] (-2) = lit "SUMMARY (0 key po" ++ truncation_marker.
Proof.
  split; [|split].
  - apply (proj1 (create_summary_empty 2000)). lia.
  - apply (proj1 (proj2 (create_summary_empty 3))). lia.
  - apply (proj2 (proj2 (create_summary_empty (-2)))). lia.
Defined.

(** C9, as stated, fails: with a budget of one token the header of the
    empty content is cut after four characters and no longer states
    the number of key points. *)
Lemma create_summary_empty_small_budget :
  create_summary [] 1 = lit "SUMM" ++ nl ++ nl ++ lit "[Truncated...]" /\
  contains (lit "0 key points") (create_summary [] 1) = false.
Proof. split; reflexivity. Qed.

End SummaryBody.

(** ** Comparing strings *)

Lemma str_eqb_eq (a b : str) : str_eqb a b = true <-> a = b.
Proof.
  revert b. induction a as [|x a IH]; intros [|y b]; cbn [str_eqb];
    try (split; [discriminate|discriminate]); [tauto|].
  rewrite andb_true_iff, N.eqb_eq, IH. split.
  - now intros [-> ->].
  - intros E. now injection E.
Qed.

Lemma member_In (s : str) (l : list str) : member s l = true <-> In s l.
Proof.
  unfold member. rewrite existsb_exists. split.
  - intros (x & Hx & E). apply str_eqb_eq in E. now subst.
  - intros Hin. exists s. split; [exact Hin|]. now apply str_eqb_eq.
Qed.

(** The three groups of answers do not overlap. *)
Lemma approves_not_rejects (r : str) :
  approves r = true -> rejects r = false /\ modifies r = false.
Proof.
  intros Ha. apply member_In in Ha.
  destruct Ha as [<-|[<-|[]]]; split; reflexivity.
Qed.

Lemma recognised_cases (r : str) :
  recognised r = true ->
  approves r = true \/
  (approves r = false /\ (rejects r = true \/ modifies r = true)).
Proof.
  unfold recognised. destruct (approves r); [now left|].
  cbn [orb]. intros Ho. right. split; [reflexivity|].
  now apply orb_true_iff.
Qed.

(** ** The process monad *)

Section ProcessFacts.
Context `{Platform}.

Lemma bind_Ok_inv {A B} (m : M A) (k : A -> M B) st b st' :
  bind m k st = (Ok b, st') ->
  exists a st1, m st = (Ok a, st1) /\ k a st1 = (Ok b, st').
Proof.
  unfold bind. destruct (m st) as [[a|e|c] st1]; intros E;
    [eauto|discriminate E|discriminate E].
Qed.

Lemma quiet_ret {A} (a : A) : quiet (ret a).
Proof. intros st. reflexivity. Qed.

Lemma quiet_raise {A} (e : Exn) : quiet (@raise _ A e).
Proof. intros st. reflexivity. Qed.

Lemma quiet_sys_exit {A} (c : Z) : quiet (@sys_exit _ A c).
Proof. intros st. reflexivity. Qed.

Lemma marks_snoc (tr : list Event) (e : Event) :
  marks (tr ++ [e]) = marks tr ++ (if is_mark e then [e] else []).
Proof. unfold marks. rewrite List.filter_app. reflexivity. Qed.

Lemma quiet_emit (e : Event) : is_mark e = false -> quiet (emit e).
Proof.
  intros He st. cbn. rewrite marks_snoc, He. apply app_nil_r.
Qed.

Lemma quiet_print (line : str) : quiet (print line).
Proof. now apply quiet_emit. Qed.

Lemma quiet_with_ext {A} (f : Ext -> Ext * A) : quiet (with_ext f).
Proof. intros st. unfold with_ext. now destruct (f (ext st)). Qed.

Lemma quiet_read_ext {A} (f : Ext -> A) : quiet (read_ext f).
Proof. intros st. reflexivity. Qed.

Lemma quiet_bind {A B} (m : M A) (k : A -> M B) :
  quiet m -> (forall a, quiet (k a)) -> quiet (bind m k).
Proof.
  intros Hm Hk st. unfold bind. specialize (Hm st).
  destruct (m st) as [[a|e|c] st1]; cbn [snd] in *; [|exact Hm|exact Hm].
  now rewrite Hk.
Qed.

End ProcessFacts.

Create HintDb quiet.

#[local] Hint Resolve quiet_ret quiet_raise quiet_sys_exit quiet_print
  quiet_with_ext quiet_read_ext : quiet.

Ltac quiet_step :=
  match goal with
  | |- quiet (bind _ _) => apply quiet_bind; [|intros ?]
  | |- quiet (emit _) => apply quiet_emit; reflexivity
  | |- quiet (match ?x with _ => _ end) => destruct x
  | |- quiet _ => solve [auto with quiet]
  end.

Ltac quiet := repeat quiet_step.

Section Quiet.
Context `{Platform}.

Lemma quiet_run argv cwd : quiet (run argv cwd).
Proof. unfold run. quiet. Qed.

Lemma quiet_write_file path content : quiet (write_file path content).
Proof. unfold write_file. quiet. Qed.

Lemma quiet_ask_claude model n prompt : quiet (ask_claude model n prompt).
Proof. unfold ask_claude. quiet. Qed.

Hint Resolve quiet_run quiet_write_file quiet_ask_claude : quiet.

Lemma quiet_create_issue title body labels :
  quiet (create_issue title body labels).
Proof. unfold create_issue. quiet. Qed.

Lemma quiet_comment_issue n comment : quiet (comment_issue n comment).
Proof. unfold comment_issue. quiet. Qed.

Lemma quiet_close_issue n : quiet (close_issue n).
Proof. unfold close_issue. quiet. Qed.

Lemma quiet_save_full_output self agent phase content :
  quiet (save_full_output self agent phase content).
Proof. unfold save_full_output, _timestamp. quiet. Qed.

Lemma quiet_create_worktree self branch issue :
  quiet (create_worktree self branch issue).
Proof. unfold create_worktree. quiet. Qed.

Lemma quiet_merge_worktree self branch : quiet (merge_worktree self branch).
Proof. unfold merge_worktree. quiet. Qed.

Lemma quiet_handle_modify data : quiet (_handle_modify data).
Proof. unfold _handle_modify. quiet. Qed.

Lemma quiet_display data : quiet (display data).
Proof. induction data as [|[key v] rest IH]; cbn [display]; quiet. Qed.

Lemma quiet_banner title : quiet (banner title).
Proof. unfold banner. quiet. Qed.

Lemma marks_approval_loop data pending st :
  marks (trace (snd (approval_loop data pending st))) = marks (trace st).
Proof.
  revert st. induction pending as [|line rest IH]; intros st;
    cbn [approval_loop].
  - cbn. rewrite marks_snoc. apply app_nil_r.
  - repeat match goal with |- context [if ?b then _ else _] => destruct b end;
      cbn [snd trace ext stdin];
      try rewrite quiet_handle_modify; try rewrite IH;
      cbn [snd trace ext stdin]; rewrite marks_snoc; apply app_nil_r.
Qed.

Lemma quiet_request_approval checkpoint_type data :
  quiet (request_approval checkpoint_type data).
Proof.
  unfold request_approval.
  repeat (apply quiet_bind; [auto using quiet_display with quiet|intros ?]).
  intros st. apply marks_approval_loop.
Qed.

End Quiet.

#[local] Hint Resolve quiet_run quiet_write_file quiet_ask_claude
  quiet_create_issue quiet_comment_issue quiet_close_issue
  quiet_save_full_output quiet_create_worktree quiet_merge_worktree
  quiet_display quiet_banner quiet_request_approval : quiet.

(** ** WorktreeManager *)

Section Worktrees.
Context `{Platform}.

(** C6: when the worktree directory of the branch already exists,
    [create_worktree] returns [None] (no workspace) and has no effect
    outside the process: the outside world is unchanged and no command
    is run, so neither a directory nor a branch is created; it only
    prints that the worktree already exists. *)
Theorem create_worktree_existing (self : Self) (branch_name : str)
  (issue_number : option str) (st : State) :
  let worktree_path := path_join (worktrees_dir self) branch_name in
  path_exists worktree_path (ext st) = true ->
  create_worktree self branch_name issue_number st =
  (Ok None,
   mkState (ext st) (stdin st)
     (trace st ++
      [EvPrint (lit "❌ Worktree already exists: " ++ worktree_path)])).
Proof.
  intros worktree_path Hex. unfold create_worktree, bind, read_ext.
  fold worktree_path. rewrite Hex. reflexivity.
Qed.

(** C1, on the code: whatever the return code of [git merge] (here a
    failure, [rc <> 0]), [merge_worktree] goes on to run
    [git worktree remove] and [git branch -d] and returns [True]. *)
Theorem merge_worktree_cleans_up_after_conflict (self : Self)
  (branch_name : str) (st : State) (x1 x2 x3 x4 : Ext)
  (o1 o3 o4 : Z * str) (rc : Z) (out : str) :
  let cwd := Some (base_dir self) in
  let worktree_path := path_join (worktrees_dir self) branch_name in
  let checkout := [lit "git"; lit "checkout"; lit "main"] in
  let merge := [lit "git"; lit "merge"; lit "--no-ff"; branch_name] in
  let remove := [lit "git"; lit "worktree"; lit "remove"; worktree_path] in
  let delete := [lit "git"; lit "branch"; lit "-d"; branch_name] in
  path_exists worktree_path (ext st) = true ->
  subprocess_run checkout cwd (ext st) = (x1, Some o1) ->
  subprocess_run merge cwd x1 = (x2, Some (rc, out)) ->
  rc <> 0%Z ->
  subprocess_run remove cwd x2 = (x3, Some o3) ->
  subprocess_run delete cwd x3 = (x4, Some o4) ->
  merge_worktree self branch_name st =
  (Ok true,
   mkState x4 (stdin st)
     (trace st ++
      [EvRun checkout; EvRun merge; EvRun remove; EvRun delete;
       EvPrint (lit "✅ Merged and cleaned up: " ++ branch_name)])).
Proof.
  intros cwd worktree_path checkout merge remove delete
    Hex Hco Hme Hrc Hrm Hde.
  unfold merge_worktree, bind, read_ext, run, bind, with_ext, emit, print,
    emit, ret.
  fold worktree_path checkout merge remove delete cwd.
  rewrite Hex. cbn [negb ext stdin trace].
  rewrite Hco. cbn [ext stdin trace]. rewrite Hme. cbn [ext stdin trace].
  rewrite Hrm. cbn [ext stdin trace]. rewrite Hde. cbn [ext stdin trace].
  rewrite <- !app_assoc. reflexivity.
Qed.

End Worktrees.

Lemma create_worktree_existing_witness :
  let first := create_worktree Sim.self (lit "feature") None
                 (Sim.start (Sim.world (inr (lit "down"))) []) in
  let second := create_worktree Sim.self (lit "feature") None (snd first) in
  fst first = Ok (Some (lit "/repo/worktrees/feature")) /\
  fst second = Ok None /\
  ext (snd second) = ext (snd first).
Proof.
  intros first second. split; [vm_compute; reflexivity|].
  unfold second.
  rewrite (create_worktree_existing Sim.self (lit "feature") None (snd first));
    [split; reflexivity|].
  vm_compute. reflexivity.
Defined.

Lemma merge_worktree_cleans_up_after_conflict_witness :
  let st := Sim.start (Sim.checked_out (lit "feature") true) [] in
  let r := merge_worktree Sim.self (lit "feature") st in
  fst r = Ok true /\
  In (EvRun [lit "git"; lit "worktree"; lit "remove";
             lit "/repo/worktrees/feature"]) (trace (snd r)) /\
  In (EvRun [lit "git"; lit "branch"; lit "-d"; lit "feature"])
     (trace (snd r)) /\
  path_exists (lit "/repo/worktrees/feature") (ext st) = true /\
  path_exists (lit "/repo/worktrees/feature") (ext (snd r)) = false.
Proof.
  intros st r.
  pose (w := Sim.checked_out (lit "feature") true).
  pose (w' := Sim.set_repo w ∅ (Sim.branches w) (Sim.merged w)).
  pose proof (merge_worktree_cleans_up_after_conflict (H := Sim.platform)
                Sim.self (lit "feature") st w w w' w'
                (0%Z, []) (0%Z, []) (1%Z, []) 1%Z []) as E.
  cbv zeta in E.
  specialize (E ltac:(vm_compute; reflexivity) ltac:(vm_compute; reflexivity)
                ltac:(vm_compute; reflexivity) ltac:(discriminate)
                ltac:(vm_compute; reflexivity) ltac:(vm_compute; reflexivity)).
  unfold r. rewrite E. cbn [fst snd trace ext].
  split; [reflexivity|].
  split; [right; right; left; vm_compute; reflexivity|].
  split; [right; right; right; left; reflexivity|].
  split; vm_compute; reflexivity.
Defined.

(** ** HumanCheckpoint *)

Lemma prompts_app (a b : list Event) : prompts (a ++ b) = (prompts a + prompts b)%nat.
Proof. unfold prompts. now rewrite List.filter_app, length_app. Qed.

Lemma prompts_prints (lines : list str) : prompts (map EvPrint lines) = 0%nat.
Proof. induction lines as [|l r IH]; [reflexivity|exact IH]. Qed.

(** A list of answers is either ignored as a whole or has a first answer
    that is acted on. *)
Lemma first_recognised (f : str -> bool) (l : list str) :
  Forall (fun x => f x = false) l \/
  exists junk line rest,
    l = junk ++ line :: rest /\ Forall (fun x => f x = false) junk /\
    f line = true.
Proof.
  induction l as [|x l IH]; [left; constructor|].
  destruct (f x) eqn:Ex.
  - right. exists [], x, l. repeat split; [constructor|exact Ex].
  - destruct IH as [Hall|(junk & line & rest & -> & Hj & Hl)].
    + left. now constructor.
    + right. exists (x :: junk), line, rest.
      repeat split; [now constructor|exact Hl].
Qed.

Section Checkpoint.
Context `{Platform}.

Lemma display_prints (data : list (str * value)) (st : State) :
  exists lines,
    display data st =
    (Ok tt, mkState (ext st) (stdin st) (trace st ++ map EvPrint lines)).
Proof.
  revert st. induction data as [|[key v] rest IH]; intros st.
  - exists []. cbn. rewrite app_nil_r. now destruct st.
  - cbn [display]. unfold bind, print, emit. cbn [ext stdin trace].
    destruct (IH (mkState (ext st) (stdin st)
                    (((trace st ++ [EvPrint (key ++ lit ":")]) ++
                      [EvPrint (lit "  " ++ py_str v)]) ++ [EvPrint []])))
      as [lines E].
    rewrite E. cbn [ext stdin trace].
    exists ((key ++ lit ":") :: (lit "  " ++ py_str v) :: [] :: lines).
    rewrite <- !app_assoc. reflexivity.
Qed.

(** [request_approval] prints the payload and enters the loop. *)
Lemma request_approval_loop checkpoint_type data st :
  exists lines,
    request_approval checkpoint_type data st =
    approval_loop data (stdin st)
      (mkState (ext st) (stdin st) (trace st ++ map EvPrint lines)).
Proof.
  unfold request_approval, bind, print, emit. cbn [ext stdin trace].
  match goal with
  | |- context [display data ?s] => destruct (display_prints data s) as [lines E]
  end.
  rewrite E. cbn [ext stdin trace].
  exists ((nl ++ rule) :: (lit "🚦 HUMAN CHECKPOINT: " ++ checkpoint_type)
          :: rule :: [] :: lines).
  rewrite <- !app_assoc. reflexivity.
Qed.

Lemma approval_loop_skip data line rest st :
  unrecognised line ->
  approval_loop data (line :: rest) st =
  approval_loop data rest
    (mkState (ext st) rest (trace st ++ [EvPrompt approval_prompt])).
Proof.
  unfold unrecognised, recognised. intros Hu.
  apply orb_false_iff in Hu as [Hu Hm].
  apply orb_false_iff in Hu as [Ha Hr].
  cbn [approval_loop ext stdin trace].
  change (member (lower line) [lit "yes"; lit "y"])
    with (approves (lower line)).
  change (member (lower line) [lit "no"; lit "n"])
    with (rejects (lower line)).
  change (member (lower line) [lit "modify"; lit "m"])
    with (modifies (lower line)).
  now rewrite Ha, Hr, Hm.
Qed.

Lemma approval_loop_answer data line rest st :
  recognised (lower line) = true ->
  exists tr',
    approval_loop data (line :: rest) st =
    (Ok (approves (lower line)), mkState (ext st) rest tr') /\
    prompts tr' = S (prompts (trace st)).
Proof.
  intros Hr. cbn [approval_loop ext stdin trace].
  change (member (lower line) [lit "yes"; lit "y"])
    with (approves (lower line)).
  change (member (lower line) [lit "no"; lit "n"])
    with (rejects (lower line)).
  change (member (lower line) [lit "modify"; lit "m"])
    with (modifies (lower line)).
  destruct (recognised_cases _ Hr) as [Ha|[Ha [Hn|Hm]]]; rewrite Ha.
  - eexists. split; [reflexivity|]. rewrite prompts_app. cbn. lia.
  - rewrite Hn. eexists. split; [reflexivity|]. rewrite prompts_app. cbn. lia.
  - destruct (rejects (lower line)).
    + eexists. split; [reflexivity|]. rewrite prompts_app. cbn. lia.
    + rewrite Hm. unfold _handle_modify, bind, print, emit, ret.
      cbn [ext stdin trace].
      eexists. split; [reflexivity|]. rewrite !prompts_app. cbn. lia.
Qed.

(** The loop skips the answers it does not recognise and decides on the
    first one it does. *)
Lemma approval_loop_decides data junk line rest st :
  Forall unrecognised junk ->
  recognised (lower line) = true ->
  exists tr',
    approval_loop data (junk ++ line :: rest) st =
    (Ok (approves (lower line)), mkState (ext st) rest tr') /\
    prompts tr' = (prompts (trace st) + S (length junk))%nat.
Proof.
  intros Hj Hr. revert st.
  induction Hj as [|x junk Hx Hj IH]; intros st; cbn [app length].
  - destruct (approval_loop_answer data line rest st Hr) as (tr' & E & Hp).
    exists tr'. split; [exact E|]. lia.
  - rewrite approval_loop_skip by exact Hx.
    destruct (IH (mkState (ext st) (junk ++ line :: rest)
                    (trace st ++ [EvPrompt approval_prompt])))
      as (tr' & E & Hp).
    exists tr'. split; [exact E|].
    rewrite Hp. cbn [trace]. rewrite prompts_app. cbn. lia.
Qed.

(** When no pending answer is recognised, [input] ends in [EOFError]. *)
Lemma approval_loop_eof data junk st :
  Forall unrecognised junk ->
  exists st', approval_loop data junk st = (Raise EOFError, st').
Proof.
  intros Hj. revert st. induction Hj as [|x junk Hx Hj IH]; intros st.
  - cbn. eexists. reflexivity.
  - rewrite approval_loop_skip by exact Hx. apply IH.
Qed.

(** C7: an answer that lowercases to [modify] or [m] makes the gate
    return [False], the same value as a rejection; the gate returns a
    [bool], so there is no third decision to store.  [_handle_modify]
    itself returns [False] in every state. *)
Theorem modify_is_rejection (checkpoint_type : str)
  (data : list (str * value)) (st : State) (junk : list str)
  (line : str) (rest : list str) :
  stdin st = junk ++ line :: rest ->
  Forall unrecognised junk ->
  In (lower line) [lit "modify"; lit "m"] ->
  fst (request_approval checkpoint_type data st) = Ok false /\
  stdin (snd (request_approval checkpoint_type data st)) = rest /\
  forall st', fst (_handle_modify data st') = Ok false.
Proof.
  intros Hin Hj Hm.
  assert (Hmod : modifies (lower line) = true) by now apply member_In.
  assert (Hrec : recognised (lower line) = true).
  { unfold recognised. rewrite Hmod. now rewrite !orb_true_r. }
  assert (Hna : approves (lower line) = false).
  { destruct (approves (lower line)) eqn:Ha; [|reflexivity].
    apply approves_not_rejects in Ha as [_ Ha]. congruence. }
  destruct (request_approval_loop checkpoint_type data st) as [lines ->].
  rewrite Hin.
  destruct (approval_loop_decides data junk line rest
              (mkState (ext st) (junk ++ line :: rest)
                 (trace st ++ map EvPrint lines)) Hj Hrec)
    as (tr' & -> & _).
  rewrite Hna. repeat split.
Qed.

(** C10: the gate returns only on an answer it recognises, after having
    written the prompt once for that answer and once for every answer it
    skipped; it returns [True] exactly when that answer lowercases to
    [yes] or [y] and [False] exactly when it lowercases to [no], [n],
    [modify] or [m].  When no pending answer is recognised it never
    decides: [input] ends in [EOFError]. *)
Theorem request_approval_decides (checkpoint_type : str)
  (data : list (str * value)) (st : State) :
  let r := request_approval checkpoint_type data st in
  match fst r with
  | Ok approved =>
    exists junk line,
      stdin st = junk ++ line :: stdin (snd r) /\
      Forall unrecognised junk /\
      (approved = true <-> In (lower line) [lit "yes"; lit "y"]) /\
      (approved = false <->
       In (lower line) [lit "no"; lit "n"; lit "modify"; lit "m"]) /\
      prompts (trace (snd r)) = (prompts (trace st) + S (length junk))%nat
  | Raise e => e = EOFError /\ Forall unrecognised (stdin st)
  | SysExit _ => False
  end.
Proof.
  intros r. unfold r.
  destruct (request_approval_loop checkpoint_type data st) as [lines ->].
  destruct (first_recognised (fun l => recognised (lower l)) (stdin st))
    as [Hall|(junk & line & rest & Hin & Hj & Hr)].
  - destruct (approval_loop_eof data (stdin st)
                (mkState (ext st) (stdin st)
                   (trace st ++ map EvPrint lines)) Hall) as [st' ->].
    cbn [fst]. split; [reflexivity|exact Hall].
  - rewrite Hin.
    destruct (approval_loop_decides data junk line rest
                (mkState (ext st) (junk ++ line :: rest)
                   (trace st ++ map EvPrint lines)) Hj Hr)
      as (tr' & -> & Hp).
    cbn [fst snd stdin trace] in *.
    exists junk, line. split; [reflexivity|]. split; [exact Hj|].
    rewrite Hp, prompts_app, prompts_prints.
    split; [|split; [|lia]].
    + unfold approves. apply member_In.
    + destruct (recognised_cases _ Hr) as [Ha|[Ha Hnm]].
      * rewrite Ha. split; [discriminate|].
        intros Hno. apply approves_not_rejects in Ha as [Hn Hm].
        change (In (lower line) ([lit "no"; lit "n"] ++ [lit "modify"; lit "m"]))
          in Hno.
        apply in_app_or in Hno as [Hno|Hno]; apply member_In in Hno.
        -- unfold rejects in Hn. congruence.
        -- unfold modifies in Hm. congruence.
      * rewrite Ha. split; [|reflexivity]. intros _.
        change (In (lower line) ([lit "no"; lit "n"] ++ [lit "modify"; lit "m"])).
        apply in_or_app.
        destruct Hnm as [Hn|Hm]; [left|right]; now apply member_In.
Qed.

End Checkpoint.

Lemma modify_is_rejection_witness :
  let st := Sim.start (Sim.world (inr (lit "down")))
              [lit "maybe"; lit "Modify"; lit "yes"] in
  fst (request_approval (lit "Plan Review") [] st) = Ok false /\
  stdin (snd (request_approval (lit "Plan Review") [] st)) = [lit "yes"].
Proof.
  intros st.
  destruct (modify_is_rejection (lit "Plan Review") [] st
              [lit "maybe"] (lit "Modify") [lit "yes"]) as (Hr & Hs & _).
  - reflexivity.
  - repeat constructor.
  - left. vm_compute. reflexivity.
  - split; [exact Hr|exact Hs].
Defined.

(** ** The agents *)

Section Agents.
Context `{Platform}.




End Agents.

(** C5, as stated, fails: with a Claude service that raises on every
    call and four approvals, the run is not aborted; it completes all
    five phases, having called the service once in Research and once in
    Plan. *)
Lemma run_workflow_completes_despite_claude_error :
  let r := run_workflow Sim.self (lit "add login endpoint")
             (Sim.start (Sim.world (inr (lit "overloaded")))
                [lit "yes"; lit "yes"; lit "yes"; lit "yes"]) in
  fst r = Ok tt /\
  claude_calls (trace (snd r)) = 2%nat /\
  marks (trace (snd r)) =
  [EvPhase Research; EvAgent Research; EvDecision Research true;
   EvPhase Plan; EvAgent Plan; EvDecision Plan true;
   EvPhase Implement; EvAgent Implement; EvDecision Implement true;
   EvPhase Validate; EvAgent Validate; EvDecision Validate true;
   EvPhase Integrate; EvAgent Integrate].
Proof. vm_compute. repeat split. Qed.



(** ** The order of the phases *)

Section AgentsAreQuiet.
Context `{Platform}.

Lemma quiet_research_execute self topic sources :
  quiet (ResearchAgent.execute self topic sources).
Proof. unfold ResearchAgent.execute, _create_research_document. quiet. Qed.

Lemma quiet_sum_hours tasks start later :
  quiet (sum_hours tasks start later).
Proof.
  revert start later.
  induction tasks as [|t rest IH]; intros start later; cbn [sum_hours];
    unfold subscript, operand; quiet.
Qed.

Lemma quiet_add_task_lines i tasks doc : quiet (add_task_lines i tasks doc).
Proof.
  revert i doc. induction tasks as [|t rest IH]; intros i doc;
    cbn [add_task_lines]; unfold subscript; quiet.
Qed.

Hint Resolve quiet_sum_hours quiet_add_task_lines : quiet.

Lemma quiet_plan_execute self task_description research_summary :
  quiet (PlanAgent.execute self task_description research_summary).
Proof.
  unfold PlanAgent.execute, _break_into_tasks, _estimate_complexity,
    _create_plan_document. quiet.
Qed.

Lemma quiet_implement_execute self worktree_path plan_summary task :
  quiet (ImplementAgent.execute self worktree_path plan_summary task).
Proof. unfold ImplementAgent.execute, _setup_environment. quiet. Qed.

Lemma quiet_validate_execute self worktree_path task :
  quiet (ValidateAgent.execute self worktree_path task).
Proof. unfold ValidateAgent.execute. quiet. Qed.

End AgentsAreQuiet.

#[local] Hint Resolve quiet_research_execute quiet_plan_execute
  quiet_implement_execute quiet_validate_execute : quiet.

Section Post.
Context `{Platform}.

Lemma post_ret {A} (a : A) st (Q : Res A -> list Event -> Prop) :
  Q (Ok a) [] -> post (ret a) st Q.
Proof. intros HQ. exists []. split; [now rewrite app_nil_r|exact HQ]. Qed.

Lemma post_emit (e : Event) st (Q : Res unit -> list Event -> Prop) :
  Q (Ok tt) (if is_mark e then [e] else []) -> post (emit e) st Q.
Proof.
  intros HQ. exists (if is_mark e then [e] else []).
  split; [apply marks_snoc|exact HQ].
Qed.

Lemma post_assoc {A B C} (m : M A) (k1 : A -> M B) (k2 : B -> M C) st Q :
  post (bind m (fun a => bind (k1 a) k2)) st Q ->
  post (bind (bind m k1) k2) st Q.
Proof.
  unfold post, bind. destruct (m st) as [[a|e|c] st1]; exact (fun x => x).
Qed.

Lemma post_ret_bind {A B} (a : A) (k : A -> M B) st Q :
  post (k a) st Q -> post (bind (ret a) k) st Q.
Proof. exact (fun x => x). Qed.

Lemma post_raise_bind {A B} (e : Exn) (k : A -> M B) st
  (Q : Res B -> list Event -> Prop) :
  Q (Raise e) [] -> post (bind (raise e) k) st Q.
Proof. intros HQ. exists []. split; [now rewrite app_nil_r|exact HQ]. Qed.

Lemma post_exit_bind {A B} (c : Z) (k : A -> M B) st
  (Q : Res B -> list Event -> Prop) :
  Q (SysExit c) [] -> post (bind (sys_exit c) k) st Q.
Proof. intros HQ. exists []. split; [now rewrite app_nil_r|exact HQ]. Qed.

Lemma post_emit_bind {B} (e : Event) (k : unit -> M B) st
  (Q : Res B -> list Event -> Prop) :
  (forall st1,
      post (k tt) st1
        (fun o ms => Q o ((if is_mark e then [e] else []) ++ ms))) ->
  post (bind (emit e) k) st Q.
Proof.
  intros Hk. unfold post, bind, emit.
  destruct (Hk (mkState (ext st) (stdin st) (trace st ++ [e])))
    as (ms & E & HQ).
  exists ((if is_mark e then [e] else []) ++ ms).
  split; [|exact HQ].
  rewrite E. cbn [trace]. rewrite marks_snoc. now rewrite app_assoc.
Qed.

Lemma post_quiet_bind {A B} (m : M A) (k : A -> M B) st
  (Q : Res B -> list Event -> Prop) :
  quiet m ->
  (forall e, Q (Raise e) []) ->
  (forall c, Q (SysExit c) []) ->
  (forall a st1, post (k a) st1 Q) ->
  post (bind m k) st Q.
Proof.
  intros Hm Hr Hx Hk. unfold post, bind. specialize (Hm st).
  destruct (m st) as [[a|e|c] st1]; cbn [fst snd] in *.
  - destruct (Hk a st1) as (ms & E & HQ). exists ms.
    split; [now rewrite E, Hm|exact HQ].
  - exists []. split; [now rewrite app_nil_r|apply Hr].
  - exists []. split; [now rewrite app_nil_r|apply Hx].
Qed.

End Post.

(** One step of the symbolic run of a computation under [post]. *)
Ltac post_step :=
  cbv beta zeta iota;
  lazymatch goal with
  | |- post (bind (bind _ _) _) _ _ => apply post_assoc
  | |- post (bind (emit (EvDecision _ ?b)) _) _ _ =>
    destruct b; cbn [negb]; apply post_emit_bind; intros ?
  | |- post (bind (ret _) _) _ _ => apply post_ret_bind
  | |- post (bind (raise _) _) _ _ => apply post_raise_bind; reflexivity
  | |- post (bind (sys_exit _) _) _ _ => apply post_exit_bind; reflexivity
  | |- post (bind (emit _) _) _ _ => apply post_emit_bind; intros ?
  | |- post (bind (print ?l) _) _ _ =>
    apply (post_emit_bind (EvPrint l)); intros ?
  | |- post (bind (banner _) _) _ _ => unfold banner
  | |- post (bind (if ?b then _ else _) _) _ _ => destruct b
  | |- post (bind (match ?x with _ => _ end) _) _ _ =>
    rewrite ?lookup_empty; destruct x
  | |- post (bind _ _) _ _ =>
    apply post_quiet_bind;
    [solve [auto with quiet] | intros ?; reflexivity | intros ?; reflexivity
    | intros ? ?]
  | |- post (ret _) _ _ => apply post_ret; reflexivity
  | |- post (print ?l) _ _ => apply (post_emit (EvPrint l)); reflexivity
  | |- post (if ?b then _ else _) _ _ => destruct b
  | |- post (match ?x with _ => _ end) _ _ => rewrite ?lookup_empty; destruct x
  end.

Section Gating.
Context `{Platform}.

(** The marks of every run satisfy the gate. *)
Lemma run_workflow_gate_ok self task_description st :
  post (run_workflow self task_description) st gate_ok.
Proof.
  unfold run_workflow, _phase_1_research, _phase_2_plan, _phase_3_implement,
    _phase_4_validate, _phase_5_integrate, gate_ok.
  repeat post_step.
Qed.

End Gating.

Lemma phase_eqb_refl (p : Phase) : phase_eqb p p = true.
Proof. now destruct p. Qed.

Lemma phase_eqb_eq (p q : Phase) : phase_eqb p q = true -> p = q.
Proof. destruct p, q; (reflexivity || discriminate). Qed.

Lemma is_approval_In (p : Phase) (seen : list Event) :
  existsb (is_approval p) seen = true -> In (EvDecision p true) seen.
Proof.
  intros He. apply existsb_exists in He as (e & Hin & Ha).
  destruct e as [| | | | | | |p' [|]]; try discriminate Ha.
  apply phase_eqb_eq in Ha. now subst.
Qed.

Lemma may_call_approved (seen : list Event) (p q : Phase) :
  may_call seen q = true -> next_phase p = Some q ->
  In (EvDecision p true) seen.
Proof.
  unfold may_call. intros Hc Hn. rewrite forallb_forall in Hc.
  assert (Hp : In p [Research; Plan; Implement; Validate; Integrate])
    by (destruct p; cbn; tauto).
  specialize (Hc p Hp). rewrite Hn, phase_eqb_refl in Hc.
  now apply is_approval_In.
Qed.

Lemma gatedb_sound (seen ms : list Event) :
  gatedb seen ms = true ->
  forall p q pre post,
    next_phase p = Some q -> ms = pre ++ EvAgent q :: post ->
    In (EvDecision p true) seen \/ In (EvDecision p true) pre.
Proof.
  revert seen. induction ms as [|e r IH]; intros seen Hg p q pre post Hn E.
  - now destruct pre.
  - cbn [gatedb] in Hg. apply andb_true_iff in Hg as [He Hr].
    destruct pre as [|e' pre]; cbn [app] in E; injection E as -> ->.
    + left. eapply may_call_approved; eassumption.
    + destruct (IH _ Hr p q pre post Hn eq_refl) as [[<-|Hs]|Hp].
      * right. now left.
      * now left.
      * right. now right.
Qed.

Lemma haltedb_sound {A} (o : Res A) (ms : list Event) :
  haltedb o ms = true ->
  forall p pre post,
    ms = pre ++ EvDecision p false :: post ->
    is_exit_1 o = true /\ post = [].
Proof.
  intros Hh p pre. revert ms Hh.
  induction pre as [|e pre IH]; intros ms Hh post ->; cbn [app haltedb] in Hh.
  - apply andb_true_iff in Hh as [Ho Hp]. split; [exact Ho|].
    now destruct post.
  - assert (Hne : match pre ++ EvDecision p false :: post with
                  | [] => true | _ => false end = false)
      by now destruct pre.
    destruct e as [| | | | | | |p' [|]];
      try exact (IH _ Hh post eq_refl).
    rewrite Hne, andb_false_r in Hh. discriminate Hh.
Qed.

Lemma marks_app (a b : list Event) : marks (a ++ b) = marks a ++ marks b.
Proof. apply List.filter_app. Qed.

Lemma In_marks (e : Event) (tr : list Event) : In e (marks tr) -> In e tr.
Proof. unfold marks. intros Hin. now apply List.filter_In in Hin. Qed.

Lemma marks_In (e : Event) (tr : list Event) :
  is_mark e = true -> In e tr -> In e (marks tr).
Proof. unfold marks. intros Hm Hin. now apply List.filter_In. Qed.

Lemma is_exit_1_eq {A} (o : Res A) : is_exit_1 o = true -> o = SysExit 1.
Proof.
  destruct o as [a|e|c]; try discriminate. cbn. intros Hc.
  apply Z.eqb_eq in Hc. now subst.
Qed.

Section Workflow.
Context `{Platform}.

(** C2: in every run of the workflow, started with an empty trace, the
    agent of a phase is called only after the checkpoint of the phase
    before it returned an approval; and when a checkpoint returns a
    rejection the run ends there with [sys.exit(1)]: no later phase is
    entered, no later agent is called, no later decision is taken. *)
Theorem workflow_gating (self : Self) (task_description : str)
  (x : Ext) (input : list str) :
  let r := run_workflow self task_description (mkState x input []) in
  (forall p q pre post,
      next_phase p = Some q ->
      trace (snd r) = pre ++ EvAgent q :: post ->
      In (EvDecision p true) pre) /\
  (forall p pre post,
      trace (snd r) = pre ++ EvDecision p false :: post ->
      fst r = SysExit 1 /\
      forall q, ~ In (EvPhase q) post /\ ~ In (EvAgent q) post /\
                forall b, ~ In (EvDecision q b) post).
Proof.
  intros r.
  destruct (run_workflow_gate_ok self task_description (mkState x input []))
    as (ms & Hms & Hok).
  fold r in Hms, Hok. cbn [trace marks List.filter app] in Hms.
  unfold gate_ok in Hok. apply andb_true_iff in Hok as [Hg Hh].
  split.
  - intros p q pre post Hn E.
    assert (Em : ms = marks pre ++ EvAgent q :: marks post)
      by (rewrite <- Hms, E, marks_app; reflexivity).
    destruct (gatedb_sound [] ms Hg p q _ _ Hn Em) as [[]|Hin].
    now apply In_marks.
  - intros p pre post E.
    assert (Em : ms = marks pre ++ EvDecision p false :: marks post)
      by (rewrite <- Hms, E, marks_app; reflexivity).
    destruct (haltedb_sound (fst r) ms Hh p _ _ Em) as [Ho Hp].
    split; [now apply is_exit_1_eq|].
    intros q. repeat split; [intros Hin|intros Hin|intros b Hin];
      apply marks_In in Hin; try reflexivity;
      rewrite Hp in Hin; destruct Hin.
Qed.

End Workflow.

Lemma workflow_gating_witness :
  fst (run_workflow Sim.self (lit "add login endpoint")
         (Sim.start (Sim.world (inr (lit "down"))) [lit "yes"; lit "no"]))
  = SysExit 1.
Proof.
  pose (r := run_workflow Sim.self (lit "add login endpoint")
               (Sim.start (Sim.world (inr (lit "down")))
                  [lit "yes"; lit "no"])).
  destruct (workflow_gating (H := Sim.platform) Sim.self
              (lit "add login endpoint") (Sim.world (inr (lit "down")))
              [lit "yes"; lit "no"]) as [_ Hstop].
  assert (Hin : In (EvDecision Plan false) (trace (snd r)))
    by (vm_compute; repeat (first [left; reflexivity | right])).
  apply in_split in Hin as (pre & post & E).
  exact (proj1 (Hstop Plan pre post E)).
Defined.

(** * Further properties of the module *)

(** ** Strings *)

Lemma split_nonempty (sep : N) (s : str) : split sep s <> [].
Proof.
  induction s as [|c r IH]; cbn [split]; [discriminate|].
  destruct (c =? sep); [discriminate|].
  destruct (split sep r); discriminate.
Qed.

Lemma join_cons (sep p : str) (ps : list str) :
  ps <> [] -> join sep (p :: ps) = p ++ sep ++ join sep ps.
Proof. destruct ps; [contradiction|reflexivity]. Qed.

(** [sep.join(s.split(sep)) == s] *)
Lemma join_split (sep : N) (s : str) : join [sep] (split sep s) = s.
Proof.
  induction s as [|c r IH]; [reflexivity|]. cbn [split].
  pose proof (split_nonempty sep r) as Hne.
  destruct (N.eqb_spec c sep) as [->|Hc].
  - rewrite join_cons by exact Hne. now rewrite IH.
  - destruct (split sep r) as [|h t]; [contradiction|].
    destruct t as [|h' t].
    + cbn [join] in *. now rewrite IH.
    + rewrite join_cons by discriminate.
      rewrite join_cons in IH by discriminate.
      rewrite <- IH. reflexivity.
Qed.

Lemma lstrip_head (l : str) (c : N) (r : str) :
  lstrip l = c :: r -> isspace c = false.
Proof.
  induction l as [|x l IH]; cbn [lstrip]; [discriminate|].
  destruct (isspace x) eqn:Ex; [exact IH|].
  intros E. injection E as <- _. exact Ex.
Qed.

(** Stripping on the right keeps the first character of a line that
    starts with one that is not white space. *)
Lemma strip_first (l : str) :
  match lstrip l with
  | c :: _ => exists r', strip l = c :: r'
  | [] => strip l = []
  end.
Proof.
  unfold strip. destruct (lstrip l) as [|c r] eqn:E; [reflexivity|].
  pose proof (lstrip_head l c r E) as Hc.
  unfold rstrip. cbn [rev].
  destruct (lstrip_snoc (rev r) c Hc) as [l' ->].
  rewrite rev_app_distr. cbn. now exists (rev l').
Qed.

(** ** ContextFirewall.create_summary, continued *)

(** The test on a line reads its first character that is not white
    space. *)
Lemma is_key_point_lstrip (l : str) :
  is_key_point l =
  match lstrip l with
  | c :: _ => existsb (N.eqb c) [45; 42; 49; 50; 51]
  | [] => false
  end.
Proof.
  unfold is_key_point, startswith_any.
  change (lit "-") with [45]; change (lit "*") with [42];
    change (lit "1") with [49]; change (lit "2") with [50];
    change (lit "3") with [51].
  pose proof (strip_first l) as Hs.
  destruct (lstrip l) as [|c r].
  - now rewrite Hs.
  - destruct Hs as [r' ->]. cbn [existsb startswith].
    rewrite !andb_true_r.
    now rewrite (N.eqb_sym 45), (N.eqb_sym 42), (N.eqb_sym 49),
      (N.eqb_sym 50), (N.eqb_sym 51).
Qed.

(** X1: whether a line is a key point depends only on its first character
    that is not white space: the line is kept exactly when that character
    is [-], [*], [1], [2] or [3]; blank lines are never kept, and neither
    are lines starting with any other character (a [#] heading, a digit
    from 4 to 9). *)
Theorem is_key_point_first_char (l : str) :
  is_key_point l =
  match lstrip l with
  | c :: _ => existsb (N.eqb c) [45; 42; 49; 50; 51]
  | [] => false
  end.
Proof. apply is_key_point_lstrip. Qed.

(** X2: when every line of the content is a key point, there are at most
    20 lines and the text fits the budget, the summary is the header,
    counting the lines, followed by the content itself, unchanged. *)
Theorem create_summary_keeps_key_point_content (content : str)
  (max_tokens : Z) :
  Forall (fun l => is_key_point l = true) (split 10 content) ->
  (length (split 10 content) <= 20)%nat ->
  (Z.of_nat (length (header (length (split 10 content)) ++ content))
   <= max_tokens * 4)%Z ->
  create_summary content max_tokens =
  header (length (split 10 content)) ++ content.
Proof.
  intros Hall Hlen Hfit.
  assert (Hkp : key_points_of content = split 10 content).
  { unfold key_points_of. apply forallb_filter_id.
    apply forallb_forall. intros l Hl.
    exact (proj1 (List.Forall_forall _ _) Hall l Hl). }
  assert (Hj : join nl (firstn 20 (split 10 content)) = content).
  { rewrite firstn_all2 by exact Hlen. apply join_split. }
  rewrite create_summary_fits; rewrite Hkp, Hj; [reflexivity|exact Hfit].
Qed.

Lemma create_summary_keeps_key_point_content_witness :
  create_summary (lit "- a" ++ nl ++ lit "  2. b") 2000 =
  lit "SUMMARY (2 key points):" ++ nl ++ nl ++ lit "- a" ++ nl ++ lit "  2. b".
Proof.
  apply (create_summary_keeps_key_point_content
           (lit "- a" ++ nl ++ lit "  2. b") 2000).
  - repeat constructor.
  - vm_compute. lia.
  - vm_compute. discriminate.
Defined.

(** X3: when the untruncated text is longer than the budget of
    [4 * max_tokens] characters ([max_tokens >= 0]), the summary is the
    first [4 * max_tokens] characters of that text followed by the
    truncation marker: it has exactly [4 * max_tokens + 16] characters. *)
Theorem create_summary_truncated (content : str) (max_tokens : Z) :
  let key_points := key_points_of content in
  let full := header (length key_points) ++ join nl (firstn 20 key_points) in
  (0 <= max_tokens)%Z ->
  (max_tokens * 4 < Z.of_nat (length full))%Z ->
  create_summary content max_tokens =
  firstn (Z.to_nat (max_tokens * 4)) full ++ nl ++ nl ++ lit "[Truncated...]"
  /\ Z.of_nat (length (create_summary content max_tokens))
     = (4 * max_tokens + 16)%Z.
Proof.
  intros key_points full Hb Hlong.
  assert (E : create_summary content max_tokens =
              firstn (Z.to_nat (max_tokens * 4)) full ++ truncation_marker).
  { rewrite create_summary_cut by (fold key_points full; lia).
    fold key_points full. unfold slice_to.
    destruct (Z.leb_spec 0 (max_tokens * 4)); [reflexivity|lia]. }
  split; [exact E|].
  rewrite E, length_app, length_truncation_marker, length_firstn. lia.
Qed.

Lemma create_summary_truncated_witness :
  Z.of_nat (length (create_summary (lit "- a long line of text") 3))
  = (4 * 3 + 16)%Z.
Proof.
  apply (create_summary_truncated (lit "- a long line of text") 3).
  - lia.
  - vm_compute. reflexivity.
Defined.

(** X16: with a negative [max_tokens] every summary is cut: the slice
    [summary[:max_tokens * 4]] then counts from the end, so the result is
    the untruncated text without its last [-4 * max_tokens] characters,
    followed by the truncation marker. *)
Theorem create_summary_negative_budget (content : str) (max_tokens : Z) :
  let key_points := key_points_of content in
  let full := header (length key_points) ++ join nl (firstn 20 key_points) in
  (max_tokens < 0)%Z ->
  create_summary content max_tokens =
  firstn (length full - Z.to_nat (- (max_tokens * 4))) full
  ++ nl ++ nl ++ lit "[Truncated...]".
Proof.
  intros key_points full Hb.
  rewrite create_summary_cut by (fold key_points full; lia).
  fold key_points full. unfold slice_to.
  destruct (Z.leb_spec 0 (max_tokens * 4)); [lia|].
  f_equal. f_equal. lia.
Qed.

Lemma create_summary_negative_budget_witness :
  create_summary [] (-1) =
  lit "SUMMARY (0 key points" ++ nl ++ nl ++ lit "[Truncated...]".
Proof.
  rewrite (create_summary_negative_budget [] (-1)); [reflexivity|lia].
Defined.

(** ** PlanAgent: finding and reading the task list *)

Lemma drop_until_split (c : N) (s : str) :
  exists pre, s = pre ++ drop_until c s /\ ~ In c pre /\
              (drop_until c s = [] \/ exists r, drop_until c s = c :: r).
Proof.
  induction s as [|x r IH]; cbn [drop_until].
  - exists []. repeat split; [intros []|now left].
  - destruct (N.eqb_spec x c) as [->|Hx].
    + exists []. repeat split; [intros []|right; now exists r].
    + destruct IH as (pre & E & Hn & Hd). exists (x :: pre).
      split; [cbn; now rewrite <- E|]. split; [|exact Hd].
      intros [Hin|Hin]; [now apply Hx|now apply Hn].
Qed.

(** What follows the first [c] of a list holds what follows any [c]. *)
Lemma after_first (c : N) (pre rest p q : str) :
  ~ In c pre -> pre ++ c :: rest = p ++ c :: q ->
  forall x, In x q -> In x rest.
Proof.
  revert p. induction pre as [|a pre IH]; intros p Hn E x Hx.
  - destruct p as [|b p]; cbn in E.
    + injection E as ->. exact Hx.
    + injection E as _ ->. apply in_or_app. right. now right.
  - destruct p as [|b p]; cbn in E.
    + injection E as -> _. exfalso. apply Hn. now left.
    + injection E as _ E. apply (IH p); [|exact E|exact Hx].
      intros Hin. apply Hn. now right.
Qed.

(** X4: [search_json_array] is the greedy search of [\[.*\]]: a match is
    the part of the answer from its first [[] to its last []], and there
    is none exactly when no [[] of the answer is followed by a []]. *)
Theorem search_json_array_spec (content : str) :
  match search_json_array content with
  | Some found =>
    exists pre body post,
      content = pre ++ found ++ post /\ found = 91 :: body ++ [93] /\
      ~ In 91 pre /\ ~ In 93 post
  | None =>
    forall pre mid post, content <> pre ++ 91 :: mid ++ 93 :: post
  end.
Proof.
  unfold search_json_array.
  destruct (drop_until_split 91 content) as (pre & E & Hpre & Hd).
  destruct (drop_until 91 content) as [|b rest] eqn:Ed.
  - intros p mid post Ec. rewrite app_nil_r in E. subst pre.
    apply Hpre. rewrite Ec. apply in_or_app. right. now left.
  - destruct Hd as [Hd|[r Hd]]; [discriminate Hd|].
    injection Hd as -> ->.
    destruct (drop_until_split 93 (rev r)) as (tail & Er & Htail & Hd).
    assert (Err : r = rev (drop_until 93 (rev r)) ++ rev tail).
    { rewrite <- (rev_involutive r) at 1. rewrite Er at 1.
      apply rev_app_distr. }
    destruct (rev (drop_until 93 (rev r))) as [|y body'] eqn:Eb.
    + intros p mid post Ec. cbn [app] in Err.
      assert (Hin : In 93 r).
      { apply (after_first 91 pre r p (mid ++ 93 :: post) Hpre);
          [now rewrite <- E|]. apply in_or_app. right. now left. }
      apply Htail. apply in_rev. now rewrite <- Err.
    + destruct Hd as [Hd|[r' Hd]].
      * rewrite Hd in Eb. discriminate Eb.
      * rewrite Hd in Eb. cbn [rev] in Eb.
        exists pre, (rev r'), (rev tail).
        split; [|split; [now rewrite <- Eb|split; [exact Hpre|]]].
        -- rewrite E at 1. f_equal. cbn [app]. f_equal. exact Err.
        -- intros Hin. apply Htail. now apply in_rev.
Qed.

Section PlanFacts.
Context `{Platform}.

Lemma sum_hours_int (task : json) (z : Z) (rest : list json) (start : Z)
  (st : State) :
  int_hours task = Some z ->
  sum_hours (task :: rest) start [] st = sum_hours rest (start + z)%Z [] st.
Proof.
  unfold int_hours. intros Hz. cbn [sum_hours]. unfold bind, subscript.
  destruct task as [| | | | | |fields]; try discriminate Hz.
  destruct (dict_get fields (lit "hours")) as [[|b|h| | | |]|];
    try discriminate Hz; injection Hz as <-; reflexivity.
Qed.

Lemma sum_hours_error (bad : json) (e : Exn) (rest : list json) (start : Z)
  (later : list number) (st : State) :
  hours_error bad = Some e ->
  sum_hours (bad :: rest) start later st = (Raise e, st).
Proof.
  unfold hours_error. intros He. cbn [sum_hours]. unfold bind, subscript.
  destruct bad as [| | | | | |fields]; try (injection He as <-; reflexivity).
  destruct (dict_get fields (lit "hours")) as [[|b|h|x|s|items|d]|];
    try discriminate He; injection He as <-; reflexivity.
Qed.

Lemma sum_hours_ints (tasks : list json) (hours : list Z) (start : Z)
  (st : State) :
  map int_hours tasks = map Some hours ->
  sum_hours tasks start [] st = (Ok (NInt (start + total_of hours)), st).
Proof.
  revert hours start.
  induction tasks as [|task rest IH]; intros [|z hours] start E;
    try discriminate E.
  - cbn. now rewrite Z.add_0_r.
  - cbn [map] in E. injection E as Hz E.
    rewrite (sum_hours_int task z) by exact Hz.
    rewrite (IH hours) by exact E.
    cbn [total_of fold_right]. now rewrite Z.add_assoc.
Qed.

Lemma sum_hours_first_error (good : list json) (bad : json)
  (rest : list json) (hours : list Z) (e : Exn) (start : Z) (st : State) :
  map int_hours good = map Some hours -> hours_error bad = Some e ->
  sum_hours (good ++ bad :: rest) start [] st = (Raise e, st).
Proof.
  revert hours start.
  induction good as [|task good IH]; intros [|z hours] start E He;
    try discriminate E.
  - now apply sum_hours_error.
  - cbn [map] in E. injection E as Hz E. cbn [app].
    rewrite (sum_hours_int task z) by exact Hz. now apply (IH hours).
Qed.

(** Adding up the hours reads the tasks and nothing else. *)
Lemma sum_hours_pure (tasks : list json) (start : Z) (later : list number)
  (st : State) :
  snd (sum_hours tasks start later st) = st.
Proof.
  revert start later.
  induction tasks as [|task rest IH]; intros start later; [reflexivity|].
  cbn [sum_hours]. unfold bind, subscript, operand.
  destruct task as [| | | | | |fields]; try reflexivity.
  destruct (dict_get fields (lit "hours")) as [[|b|h|x|s|items|d]|];
    try reflexivity;
    destruct later as [|n later]; cbn [ret raise fst snd];
    repeat match goal with
           | |- context [float_of_int ?z] => destruct (float_of_int z)
           end;
    first [apply IH | reflexivity].
Qed.

Lemma estimate_complexity_ints (tasks : list json) (hours : list Z)
  (st : State) :
  map int_hours tasks = map Some hours ->
  let total := total_of hours in
  _estimate_complexity tasks st =
  (Ok (mkComplexity (NInt total)
         (if (total <? 10)%Z then lit "medium" else lit "high")
         (if (total <? 10)%Z then lit "standard" else lit "enterprise")),
   st).
Proof.
  intros E total. unfold _estimate_complexity, bind.
  now rewrite (sum_hours_ints tasks hours) by exact E.
Qed.

Lemma estimate_complexity_error (good : list json) (bad : json)
  (rest : list json) (hours : list Z) (e : Exn) (st : State) :
  map int_hours good = map Some hours -> hours_error bad = Some e ->
  _estimate_complexity (good ++ bad :: rest) st = (Raise e, st).
Proof.
  intros E He. unfold _estimate_complexity, bind.
  now rewrite (sum_hours_first_error good bad rest hours e) by assumption.
Qed.

(** X5: [_estimate_complexity] adds up the hours of the tasks in their
    order.  When every task is a dict with an int under [hours] (a bool
    counting as 1 or 0), it returns their exact total and rates the plan
    [medium] / [standard] below 10 hours and [high] / [enterprise] from
    10 hours on.  The first task that is no such dict ends it, unless its
    hours are a float: with a [KeyError('hours')] when it is a dict
    without [hours], with a [TypeError] when it is no dict or its hours
    are no number.  In every case the call has no effect. *)
Theorem estimate_complexity_spec (tasks : list json) (st : State) :
  (forall hours, map int_hours tasks = map Some hours ->
     let total := total_of hours in
     _estimate_complexity tasks st =
     (Ok (mkComplexity (NInt total)
            (if (total <? 10)%Z then lit "medium" else lit "high")
            (if (total <? 10)%Z then lit "standard" else lit "enterprise")),
      st)) /\
  (forall good bad rest hours e,
     tasks = good ++ bad :: rest ->
     map int_hours good = map Some hours -> hours_error bad = Some e ->
     _estimate_complexity tasks st = (Raise e, st)) /\
  snd (_estimate_complexity tasks st) = st.
Proof.
  split; [|split].
  - intros hours E. now apply estimate_complexity_ints.
  - intros good bad rest hours e -> E He.
    now apply (estimate_complexity_error good bad rest hours).
  - unfold _estimate_complexity, bind.
    pose proof (sum_hours_pure tasks 0 [] st) as Hp.
    destruct (sum_hours tasks 0 [] st) as [[total|e|c] st1]; exact Hp.
Qed.

End PlanFacts.

Lemma estimate_complexity_spec_witness :
  let P := Sim.platform in
  let st := Sim.start (Sim.world (inr (lit "down"))) [] in
  @_estimate_complexity P
    [JDict [(lit "hours", JInt 4)]; JDict [(lit "hours", JBool true)]] st
  = (Ok (mkComplexity (NInt 5) (lit "medium") (lit "standard")), st) /\
  @_estimate_complexity P
    [JDict [(lit "hours", JStr (lit "2"))]; JDict []] st
  = (Raise TypeError, st) /\
  @_estimate_complexity P
    [JDict [(lit "hours", JInt 2)]; JDict []; JNull] st
  = (Raise (KeyError "hours"), st).
Proof.
  intros P st. split; [|split].
  - apply (proj1 (estimate_complexity_spec (H := P)
                    [JDict [(lit "hours", JInt 4)];
                     JDict [(lit "hours", JBool true)]] st) [4; 1]%Z).
    reflexivity.
  - apply (proj1 (proj2 (estimate_complexity_spec (H := P)
                           [JDict [(lit "hours", JStr (lit "2"))]; JDict []]
                           st))
             [] (JDict [(lit "hours", JStr (lit "2"))]) [JDict []] []);
      reflexivity.
  - apply (proj1 (proj2 (estimate_complexity_spec (H := P)
                           [JDict [(lit "hours", JInt 2)]; JDict []; JNull]
                           st))
             [JDict [(lit "hours", JInt 2)]] (JDict []) [JNull] [2%Z]);
      reflexivity.
Defined.

(** ** GitHubIssues.create_issue *)

Lemma lstrip_spaces (ws rest : str) :
  forallb isspace ws = true -> lstrip (ws ++ rest) = lstrip rest.
Proof.
  induction ws as [|c ws IH]; intros Hws; [reflexivity|].
  cbn [forallb] in Hws. apply andb_true_iff in Hws as [Hc Hws].
  cbn [app lstrip]. rewrite Hc. now apply IH.
Qed.

(** Stripping on the left leaves a suffix. *)
Lemma lstrip_suffix (s : str) : exists ws, s = ws ++ lstrip s.
Proof.
  induction s as [|c r IH]; cbn [lstrip]; [now exists []|].
  destruct (isspace c); [|now exists []].
  destruct IH as [ws E]. exists (c :: ws). cbn. now rewrite <- E.
Qed.

(** The last piece of a split is what follows the last separator. *)
Lemma last_split (sep : N) (b n : str) :
  ~ In sep n -> List.last (split sep (b ++ sep :: n)) [] = n.
Proof.
  intros Hn. induction b as [|c b IH]; cbn [app split].
  - rewrite N.eqb_refl, split_no_sep by exact Hn. reflexivity.
  - pose proof (join_split sep (b ++ sep :: n)) as J.
    destruct (c =? sep).
    + destruct (split sep (b ++ sep :: n)) as [|h t]; [|exact IH].
      cbn in J. now destruct b.
    + destruct (split sep (b ++ sep :: n)) as [|h t]; [now destruct b|].
      destruct t as [|h' t]; [|exact IH].
      cbn in J, IH. subst h. exfalso. apply Hn. rewrite J.
      apply in_or_app. right. now left.
Qed.

(** The URL printed by [gh]: anything, a slash, the number, white space. *)
Lemma issue_number_of_url (base number ws : str) (z : N) :
  ~ In 47 (number ++ [z]) -> isspace z = false ->
  forallb isspace ws = true ->
  List.last (split 47 (strip (base ++ 47 :: (number ++ [z]) ++ ws))) []
  = number ++ [z].
Proof.
  intros Hn Hz Hws.
  assert (Hl : exists b', lstrip (base ++ 47 :: (number ++ [z]) ++ ws)
                          = b' ++ 47 :: (number ++ [z]) ++ ws).
  { destruct (lstrip_suffix base) as [sp Eb].
    destruct (lstrip base) as [|c r] eqn:El.
    - rewrite app_nil_r in Eb. subst sp.
      assert (Hsp : forallb isspace base = true).
      { clear -El. induction base as [|c b IH]; [reflexivity|].
        cbn [lstrip] in El. cbn [forallb].
        destruct (isspace c); [now apply IH|discriminate El]. }
      exists []. rewrite lstrip_spaces by exact Hsp. reflexivity.
    - exists (c :: r). pose proof (lstrip_head base c r El) as Hc.
      clear Eb. induction base as [|x b IH]; [discriminate El|].
      cbn [lstrip app] in *. destruct (isspace x); [now apply IH|].
      now injection El as -> ->. }
  destruct Hl as [b' Hl]. unfold strip. rewrite Hl. unfold rstrip.
  assert (Es : b' ++ 47 :: (number ++ [z]) ++ ws
               = ((b' ++ 47 :: number) ++ [z]) ++ ws)
    by (rewrite <- !app_assoc; reflexivity).
  rewrite Es, (rev_app_distr _ ws), (rev_app_distr _ [z]).
  cbn [rev app].
  rewrite lstrip_spaces
    by (rewrite forallb_forall in *; intros x Hx; apply Hws, in_rev, Hx).
  cbn [lstrip]. rewrite Hz. cbn [rev]. rewrite rev_involutive.
  rewrite <- app_assoc. cbn [app]. now apply last_split.
Qed.

Section GitHubFacts.
Context `{Platform}.

Lemma create_issue_result (title body : str) (labels : list str)
  (st : State) (x : Ext) (rc : Z) (out : str) :
  let cmd := [lit "gh"; lit "issue"; lit "create"; lit "--title"; title;
              lit "--body"; body; lit "--label"; join (lit ",") labels] in
  subprocess_run cmd None (ext st) = (x, Some (rc, out)) ->
  create_issue title body labels st =
  (Ok (if (rc =? 0)%Z
       then Some (List.last (split 47 (strip out)) [])
       else None),
   mkState x (stdin st) (trace st ++ [EvRun cmd])).
Proof.
  intros cmd Hrun.
  unfold create_issue, run, bind, emit, with_ext, ret. fold cmd.
  cbn [ext stdin trace]. rewrite Hrun. cbn [ext stdin trace].
  now destruct (rc =? 0)%Z.
Qed.

(** X6: [create_issue] runs one [gh issue create] command.  When the
    command fails it returns [None]; when it succeeds and prints a URL
    ending in a slash, the issue number and white space, it returns
    that number. *)
Theorem create_issue_returns_number (title body : str) (labels : list str)
  (st : State) (x : Ext) (rc : Z) (out : str) :
  let cmd := [lit "gh"; lit "issue"; lit "create"; lit "--title"; title;
              lit "--body"; body; lit "--label"; join (lit ",") labels] in
  let st' := mkState x (stdin st) (trace st ++ [EvRun cmd]) in
  subprocess_run cmd None (ext st) = (x, Some (rc, out)) ->
  (rc <> 0%Z -> create_issue title body labels st = (Ok None, st')) /\
  (forall base number z ws,
      rc = 0%Z -> out = base ++ 47 :: (number ++ [z]) ++ ws ->
      ~ In 47 (number ++ [z]) -> isspace z = false ->
      forallb isspace ws = true ->
      create_issue title body labels st = (Ok (Some (number ++ [z])), st')).
Proof.
  intros cmd st' Hrun.
  pose proof (create_issue_result title body labels st x rc out Hrun) as E.
  fold cmd st' in E.
  split.
  - intros Hrc. rewrite E. destruct (Z.eqb_spec rc 0); [contradiction|].
    reflexivity.
  - intros base number z ws -> -> Hn Hz Hws. rewrite E. cbn.
    now rewrite issue_number_of_url.
Qed.

End GitHubFacts.

Lemma create_issue_returns_number_witness :
  fst (create_issue (lit "[PLAN] x") (lit "body") [lit "phase:plan"]
         (Sim.start (Sim.world (inr (lit "down"))) []))
  = Ok (Some (lit "1")).
Proof.
  set (st := Sim.start (Sim.world (inr (lit "down"))) []).
  destruct (create_issue_returns_number (H := Sim.platform)
              (lit "[PLAN] x") (lit "body") [lit "phase:plan"] st
              (fst (Sim.gh [lit "issue"; lit "create"] (ext st)))
              0%Z (lit "https://github.com/o/r/issues/" ++ lit "1" ++ nl)
              ltac:(vm_compute; reflexivity)) as [_ Hok].
  rewrite (Hok (lit "https://github.com/o/r/issues") [] 49 nl eq_refl
             eq_refl);
    [reflexivity| |reflexivity|reflexivity].
  intros [Hin|[]]. discriminate Hin.
Defined.

(** ** WorktreeManager.merge_worktree *)

Section MergeFacts.
Context `{Platform}.

(** X7: when the worktree directory of the branch does not exist,
    [merge_worktree] returns [False] and has no effect outside the
    process: no git command is run; it only prints that the worktree
    was not found. *)
Theorem merge_worktree_not_found (self : Self) (branch_name : str)
  (st : State) :
  let worktree_path := path_join (worktrees_dir self) branch_name in
  path_exists worktree_path (ext st) = false ->
  merge_worktree self branch_name st =
  (Ok false,
   mkState (ext st) (stdin st)
     (trace st ++ [EvPrint (lit "❌ Worktree not found: " ++ worktree_path)])).
Proof.
  intros worktree_path Hex. unfold merge_worktree, bind, read_ext.
  fold worktree_path. rewrite Hex. reflexivity.
Qed.

End MergeFacts.

Lemma merge_worktree_not_found_witness :
  let st := Sim.start (Sim.world (inr (lit "down"))) [] in
  let r := merge_worktree Sim.self (lit "feature") st in
  fst r = Ok false /\ ext (snd r) = ext st.
Proof.
  intros st r. unfold r.
  rewrite (merge_worktree_not_found (H := Sim.platform) Sim.self
             (lit "feature") st);
    [split; reflexivity|vm_compute; reflexivity].
Defined.

(** ** ContextFirewall.save_full_output *)

Section ArchiveFacts.
Context `{Platform}.



End ArchiveFacts.


(** ** HumanCheckpoint.request_approval, continued *)

Section CheckpointFacts.
Context `{Platform}.

Lemma approval_loop_payload data1 data2 pending st1 st2 :
  stdin st1 = stdin st2 ->
  fst (approval_loop data1 pending st1) = fst (approval_loop data2 pending st2)
  /\ stdin (snd (approval_loop data1 pending st1))
     = stdin (snd (approval_loop data2 pending st2)).
Proof.
  revert st1 st2. induction pending as [|line rest IH]; intros st1 st2 Hin;
    cbn [approval_loop ext stdin trace].
  - cbn. now split.
  - repeat match goal with
           | |- context [if ?b then _ else _] => destruct b
           end; cbn; try (now split).
    now apply IH.
Qed.

(** X9: the decision of a checkpoint does not depend on what is shown:
    for the same pending answers, [request_approval] returns the same
    result and leaves the same answers unread, whatever the checkpoint
    type and the data displayed. *)
Theorem request_approval_ignores_payload
  (type1 type2 : str) (data1 data2 : list (str * value))
  (st1 st2 : State) :
  stdin st1 = stdin st2 ->
  fst (request_approval type1 data1 st1) = fst (request_approval type2 data2 st2)
  /\ stdin (snd (request_approval type1 data1 st1))
     = stdin (snd (request_approval type2 data2 st2)).
Proof.
  intros Hin.
  destruct (request_approval_loop type1 data1 st1) as [l1 ->].
  destruct (request_approval_loop type2 data2 st2) as [l2 ->].
  rewrite Hin. now apply approval_loop_payload.
Qed.

End CheckpointFacts.

Lemma request_approval_ignores_payload_witness :
  let st := Sim.start (Sim.world (inr (lit "down"))) [lit "what"; lit "y"] in
  fst (request_approval (lit "Plan Review") [(lit "Tasks", VInt 6)] st)
  = fst (request_approval (lit "Code Review") [] st).
Proof.
  intros st.
  exact (proj1 (request_approval_ignores_payload (H := Sim.platform)
                  (lit "Plan Review") (lit "Code Review")
                  [(lit "Tasks", VInt 6)] [] st st eq_refl)).
Defined.

(** ** AutoFlowOrchestrator.run_workflow, continued *)

(** One step of the symbolic run under [post], reading the result dict of
    phase 3 exactly; [leaf] closes the goals about outcomes. *)
Ltac post_exact_step leaf :=
  cbv beta zeta iota;
  lazymatch goal with
  | |- post (bind (bind _ _) _) _ _ => apply post_assoc
  | |- post (bind (ret _) _) _ _ => apply post_ret_bind
  | |- post (bind (raise _) _) _ _ => apply post_raise_bind; leaf
  | |- post (bind (sys_exit _) _) _ _ => apply post_exit_bind; leaf
  | |- post (bind (emit (EvDecision _ ?b)) _) _ _ =>
    destruct b; cbn [negb]; apply post_emit_bind; intros ?
  | |- post (bind (emit _) _) _ _ => apply post_emit_bind; intros ?
  | |- post (bind (print ?l) _) _ _ =>
    apply (post_emit_bind (EvPrint l)); intros ?
  | |- post (bind (banner _) _) _ _ => unfold banner
  | |- post (bind (match ?x with _ => _ end) _) _ _ =>
    lazymatch x with
    | lit "implement-" ++ ?y =>
      change x with (105 :: (lit "mplement-" ++ y))
    | _ =>
      first [ rewrite lookup_empty
            | rewrite lookup_insert_eq
            | rewrite lookup_insert_ne by done
            | destruct x ]
    end
  | |- post (bind _ _) _ _ =>
    apply post_quiet_bind;
    [solve [auto with quiet] | intros ?; leaf | intros ?; leaf | intros ? ?]
  | |- post (ret _) _ _ => apply post_ret; leaf
  | |- post (print ?l) _ _ => apply (post_emit (EvPrint l)); leaf
  end.

Section Runs.
Context `{Platform}.

Lemma run_workflow_completes self task_description st :
  post (run_workflow self task_description) st completes.
Proof.
  unfold run_workflow, _phase_1_research, _phase_2_plan, _phase_3_implement,
    _phase_4_validate, _phase_5_integrate, completes.
  repeat post_exact_step
    ltac:(first [ reflexivity
                | intros [? E]; first [discriminate E | reflexivity] ]).
Qed.

(** X10: [run_workflow] returns normally only at the end of a complete
    run: each of the four checkpoints, in the order Research, Plan,
    Implement, Validate, returned an approval after its agent was
    called, and the Integrate phase called [merge_worktree], without a
    checkpoint of its own. *)
Theorem run_workflow_returns_after_all_approvals (self : Self)
  (task_description : str) (x : Ext) (input : list str) :
  let r := run_workflow self task_description (mkState x input []) in
  fst r = Ok tt -> marks (trace (snd r)) = complete_marks.
Proof.
  intros r Hok.
  destruct (run_workflow_completes self task_description (mkState x input []))
    as (ms & Hms & Hc).
  fold r in Hms, Hc. cbn [trace marks List.filter app] in Hms.
  rewrite Hms. apply Hc. now exists tt.
Qed.

Lemma run_workflow_crashes self task_description st :
  post (run_workflow self task_description) st crashes_without_worktree.
Proof.
  unfold run_workflow, _phase_1_research, _phase_2_plan, _phase_3_implement,
    _phase_4_validate, _phase_5_integrate, crashes_without_worktree.
  repeat post_exact_step ltac:(reflexivity).
Qed.

End Runs.

Lemma existsb_In {A} (f : A -> bool) (l : list A) (x : A) :
  In x l -> f x = true -> existsb f l = true.
Proof. intros Hin Hf. apply existsb_exists. now exists x. Qed.

Lemma is_key_error_eq {A} (key : string) (o : Res A) :
  is_key_error key o = true -> o = Raise (KeyError key).
Proof.
  destruct o as [a|[| | |k|]|c]; try discriminate. cbn. intros E.
  apply String.eqb_eq in E. now subst.
Qed.

Section RunFacts.
Context `{Platform}.

(** X11: when the run enters the Validate phase without an approved
    implementation -- that is, when no worktree could be created and
    [_phase_3_implement] returned an empty dict -- it does not stop
    there: it ends in [_phase_4_validate] with an uncaught
    [KeyError('worktree')], before the validation agent is called. *)
Theorem missing_worktree_raises_key_error (self : Self)
  (task_description : str) (x : Ext) (input : list str) :
  let r := run_workflow self task_description (mkState x input []) in
  In (EvPhase Validate) (trace (snd r)) ->
  ~ In (EvDecision Implement true) (trace (snd r)) ->
  fst r = Raise (KeyError "worktree") /\
  ~ In (EvAgent Validate) (trace (snd r)).
Proof.
  intros r Hv Hn.
  destruct (run_workflow_crashes self task_description (mkState x input []))
    as (ms & Hms & Hc).
  fold r in Hms, Hc. cbn [trace marks List.filter app] in Hms.
  unfold crashes_without_worktree in Hc. rewrite <- Hms in Hc.
  assert (H1 : existsb (is_phase Validate) (marks (trace (snd r))) = true).
  { apply (existsb_In _ _ (EvPhase Validate)); [|reflexivity].
    now apply marks_In. }
  assert (H2 : existsb (is_approval Implement) (marks (trace (snd r)))
               = false).
  { destruct (existsb (is_approval Implement) (marks (trace (snd r))))
      eqn:E; [|reflexivity].
    apply is_approval_In, In_marks in E. contradiction. }
  rewrite H1, H2 in Hc. cbn [andb negb] in Hc.
  apply andb_true_iff in Hc as [Hk Ha]. split.
  - now apply is_key_error_eq.
  - intros Hin. apply negb_true_iff in Ha.
    rewrite (existsb_In _ _ (EvAgent Validate)) in Ha;
      [discriminate Ha| |reflexivity].
    now apply marks_In.
Qed.

End RunFacts.

Lemma run_workflow_returns_after_all_approvals_witness :
  marks (trace (snd (run_workflow Sim.self (lit "add login endpoint")
                       (Sim.start (Sim.world (inr (lit "down")))
                          [lit "yes"; lit "y"; lit "YES"; lit "Y"]))))
  = complete_marks.
Proof.
  apply (run_workflow_returns_after_all_approvals (H := Sim.platform)
           Sim.self (lit "add login endpoint")
           (Sim.world (inr (lit "down")))
           [lit "yes"; lit "y"; lit "YES"; lit "Y"]).
  vm_compute. reflexivity.
Defined.

Lemma missing_worktree_raises_key_error_witness :
  fst (run_workflow Sim.self (lit "add login")
         (Sim.start (Sim.checked_out (lit "implement-add-login") false)
            [lit "yes"; lit "yes"]))
  = Raise (KeyError "worktree").
Proof.
  apply (missing_worktree_raises_key_error (H := Sim.platform)
           Sim.self (lit "add login")
           (Sim.checked_out (lit "implement-add-login") false)
           [lit "yes"; lit "yes"]).
  - vm_compute. repeat (first [left; reflexivity | right]).
  - vm_compute. intros Hin.
    repeat (destruct Hin as [Hin|Hin]; [discriminate Hin|]). exact Hin.
Defined.

(** ** Calls of the Claude service *)

Lemma claude_calls_snoc (tr : list Event) (e : Event) :
  claude_calls (tr ++ [e]) =
  (claude_calls tr + match e with EvClaude _ => 1 | _ => 0 end)%nat.
Proof.
  unfold claude_calls. rewrite List.filter_app, length_app.
  now destruct e.
Qed.

Section Mute.
Context `{Platform}.

Lemma mute_ret {A} (a : A) : mute (ret a).
Proof. intros st. reflexivity. Qed.

Lemma mute_raise {A} (e : Exn) : mute (@raise _ A e).
Proof. intros st. reflexivity. Qed.

Lemma mute_sys_exit {A} (c : Z) : mute (@sys_exit _ A c).
Proof. intros st. reflexivity. Qed.

Lemma mute_emit (e : Event) :
  match e with EvClaude _ => False | _ => True end -> mute (emit e).
Proof.
  intros He st. unfold emit. cbn [snd trace]. rewrite claude_calls_snoc.
  destruct e; try contradiction; apply Nat.add_0_r.
Qed.

Lemma mute_print (line : str) : mute (print line).
Proof. now apply mute_emit. Qed.

Lemma mute_with_ext {A} (f : Ext -> Ext * A) : mute (with_ext f).
Proof. intros st. unfold with_ext. now destruct (f (ext st)). Qed.

Lemma mute_read_ext {A} (f : Ext -> A) : mute (read_ext f).
Proof. intros st. reflexivity. Qed.

Lemma mute_bind {A B} (m : M A) (k : A -> M B) :
  mute m -> (forall a, mute (k a)) -> mute (bind m k).
Proof.
  intros Hm Hk st. unfold bind. specialize (Hm st).
  destruct (m st) as [[a|e|c] st1]; cbn [snd] in *; [|exact Hm|exact Hm].
  now rewrite Hk.
Qed.




End Mute.

Create HintDb mute.

#[local] Hint Resolve mute_ret mute_raise mute_sys_exit mute_print
  mute_with_ext mute_read_ext : mute.

Ltac mute_step :=
  match goal with
  | |- mute (bind _ _) => apply mute_bind; [|intros ?]
  | |- mute (emit _) => apply mute_emit; exact I
  | |- mute (match ?x with _ => _ end) => destruct x
  | |- mute _ => solve [auto with mute]
  end.

Ltac mute := repeat mute_step.

Section MuteParts.
Context `{Platform}.

Lemma mute_run argv cwd : mute (run argv cwd).
Proof. unfold run. mute. Qed.

Lemma mute_write_file path content : mute (write_file path content).
Proof. unfold write_file. mute. Qed.

Hint Resolve mute_run mute_write_file : mute.

Lemma mute_create_issue title body labels :
  mute (create_issue title body labels).
Proof. unfold create_issue. mute. Qed.

Lemma mute_comment_issue n comment : mute (comment_issue n comment).
Proof. unfold comment_issue. mute. Qed.

Lemma mute_close_issue n : mute (close_issue n).
Proof. unfold close_issue. mute. Qed.

Lemma mute_save_full_output self agent phase content :
  mute (save_full_output self agent phase content).
Proof. unfold save_full_output, _timestamp. mute. Qed.

Lemma mute_create_worktree self branch issue :
  mute (create_worktree self branch issue).
Proof. unfold create_worktree. mute. Qed.

Lemma mute_merge_worktree self branch : mute (merge_worktree self branch).
Proof. unfold merge_worktree. mute. Qed.

Lemma mute_handle_modify data : mute (_handle_modify data).
Proof. unfold _handle_modify. mute. Qed.

Lemma mute_display data : mute (display data).
Proof. induction data as [|[key v] rest IH]; cbn [display]; mute. Qed.

Lemma mute_banner title : mute (banner title).
Proof. unfold banner. mute. Qed.

Lemma mute_approval_loop data pending st :
  claude_calls (trace (snd (approval_loop data pending st)))
  = claude_calls (trace st).
Proof.
  revert st. induction pending as [|line rest IH]; intros st;
    cbn [approval_loop].
  - cbn [snd trace]. rewrite claude_calls_snoc. apply Nat.add_0_r.
  - repeat match goal with |- context [if ?b then _ else _] => destruct b end;
      cbn [snd trace ext stdin];
      try rewrite mute_handle_modify; try rewrite IH;
      cbn [snd trace ext stdin]; rewrite claude_calls_snoc;
      apply Nat.add_0_r.
Qed.

Lemma mute_request_approval checkpoint_type data :
  mute (request_approval checkpoint_type data).
Proof.
  unfold request_approval.
  repeat (apply mute_bind; [auto using mute_display with mute|intros ?]).
  intros st. apply mute_approval_loop.
Qed.

Hint Resolve mute_create_issue mute_comment_issue mute_close_issue
  mute_save_full_output mute_create_worktree mute_merge_worktree
  mute_display mute_banner mute_request_approval : mute.

Lemma mute_sum_hours tasks start later :
  mute (sum_hours tasks start later).
Proof.
  revert start later.
  induction tasks as [|t rest IH]; intros start later; cbn [sum_hours];
    unfold subscript, operand; mute.
Qed.

Lemma mute_add_task_lines i tasks doc : mute (add_task_lines i tasks doc).
Proof.
  revert i doc. induction tasks as [|t rest IH]; intros i doc;
    cbn [add_task_lines]; unfold subscript; mute.
Qed.

Hint Resolve mute_sum_hours mute_add_task_lines : mute.

Lemma mute_implement_execute self worktree_path plan_summary task :
  mute (ImplementAgent.execute self worktree_path plan_summary task).
Proof. unfold ImplementAgent.execute, _setup_environment. mute. Qed.

Lemma mute_validate_execute self worktree_path task :
  mute (ValidateAgent.execute self worktree_path task).
Proof. unfold ValidateAgent.execute. mute. Qed.

Hint Resolve mute_implement_execute mute_validate_execute : mute.





Lemma mute_phase_3 self task_description plan_issue :
  mute (_phase_3_implement self task_description plan_issue).
Proof. unfold _phase_3_implement. mute. Qed.

Lemma mute_phase_4 self implement_result :
  mute (_phase_4_validate self implement_result).
Proof. unfold _phase_4_validate. mute. Qed.

Lemma mute_phase_5 self implement_result validate_result :
  mute (_phase_5_integrate self implement_result validate_result).
Proof. unfold _phase_5_integrate. mute. Qed.

Hint Resolve mute_phase_3 mute_phase_4 mute_phase_5 : mute.




End MuteParts.


(** ** Phases without their GitHub issue *)

Section IssueFacts.
Context `{Platform}.

(** A step whose outcome is known. *)
Lemma post_bind_Ok {A B} (m : M A) (k : A -> M B) st a st1 ms1
  (Q : Res B -> list Event -> Prop) :
  m st = (Ok a, st1) ->
  marks (trace st1) = marks (trace st) ++ ms1 ->
  post (k a) st1 (fun o ms => Q o (ms1 ++ ms)) ->
  post (bind m k) st Q.
Proof.
  intros Em E1 (ms & E & HQ). unfold post, bind. rewrite Em.
  exists (ms1 ++ ms). split; [|exact HQ].
  now rewrite E, E1, app_assoc.
Qed.

Lemma post_print_Ok {B} (line : str) (k : unit -> M B) st
  (Q : Res B -> list Event -> Prop) :
  post (k tt) (mkState (ext st) (stdin st) (trace st ++ [EvPrint line])) Q ->
  post (bind (print line) k) st Q.
Proof.
  intros Hk.
  apply (post_bind_Ok _ _ st tt
           (mkState (ext st) (stdin st) (trace st ++ [EvPrint line])) []);
    [reflexivity| |exact Hk].
  cbn [trace]. now rewrite marks_snoc.
Qed.

Lemma post_mark_Ok {B} (e : Event) (k : unit -> M B) st
  (Q : Res B -> list Event -> Prop) :
  is_mark e = true ->
  post (k tt) (mkState (ext st) (stdin st) (trace st ++ [e]))
    (fun o ms => Q o (e :: ms)) ->
  post (bind (emit e) k) st Q.
Proof.
  intros He Hk.
  apply (post_bind_Ok _ _ st tt
           (mkState (ext st) (stdin st) (trace st ++ [e])) [e]);
    [reflexivity| |exact Hk].
  cbn [trace]. now rewrite marks_snoc, He.
Qed.

Lemma post_sys_exit {A} (c : Z) st (Q : Res A -> list Event -> Prop) :
  Q (SysExit c) [] -> post (sys_exit c) st Q.
Proof. intros HQ. exists []. split; [now rewrite app_nil_r|exact HQ]. Qed.

(** A phase whose [gh issue create] failed, from the creation of the
    issue on: the agent, the checkpoint and what follows the decision. *)
Lemma post_without_issue {R} (p : Phase) (title body : str)
  (labels : list str) (created : option str -> str)
  (agent : M R) (checkpoint : R -> M bool) (stop : str)
  (comment : R -> str) (st : State) (x : Ext) (rc : Z) (out : str) :
  rc <> 0%Z ->
  quiet agent -> (forall r, quiet (checkpoint r)) ->
  subprocess_run
    [lit "gh"; lit "issue"; lit "create"; lit "--title"; title;
     lit "--body"; body; lit "--label"; join (lit ",") labels]
    None (ext st) = (x, Some (rc, out)) ->
  post (let* issue_number := create_issue title body labels in
        print (created issue_number) ;;
        emit (EvAgent p) ;;
        let* result := agent in
        let* approved := checkpoint result in
        emit (EvDecision p approved) ;;
        if negb approved then print stop ;; sys_exit 1
        else
          comment_issue issue_number (comment result) ;;
          close_issue issue_number ;;
          ret issue_number) st
    (fun o ms => ends_without_issue p o (EvPhase p :: ms) /\
                 forall v, o <> Ok v).
Proof.
  intros Hrc Ha Hc Hrun.
  apply (post_bind_Ok _ _ st _ _ [] _
           (create_issue_result title body labels st x rc out Hrun)).
  { cbn [trace]. now rewrite marks_snoc. }
  destruct (Z.eqb_spec rc 0) as [Hz|_]; [contradiction|].
  unfold comment_issue.
  repeat post_exact_step
    ltac:(cbn; split;
          [first [ left; split; reflexivity
                 | right; right; split; [reflexivity|intros ? ?; discriminate] ]
          |intros ? ?; discriminate]).
  apply post_sys_exit. cbn. split; [|intros ? ?; discriminate].
  right. left. split; reflexivity.
Qed.

(** X13: a phase whose [gh issue create] command fails never returns
    normally, since the issue number is [None].  Its agent is still
    called.  When the checkpoint then returns an approval, commenting
    the issue raises a [TypeError]; when it returns a rejection, the
    process exits with status 1 as usual; otherwise the agent or the
    checkpoint did not return and no decision was taken.  This holds
    for the Research and for the Plan phase. *)
Theorem phase_without_issue_never_returns (self : Self)
  (task_description : str) (research_issue : option str)
  (st : State) (x : Ext) (rc : Z) (out : str) :
  rc <> 0%Z ->
  (subprocess_run
     [lit "gh"; lit "issue"; lit "create";
      lit "--title"; lit "[RESEARCH] " ++ task_description;
      lit "--body";
      lit "Research patterns and examples for: " ++ task_description;
      lit "--label";
      join (lit ",") [lit "phase:research"; lit "status:in-progress"]]
     None (ext st) = (x, Some (rc, out)) ->
   post (_phase_1_research self task_description) st
     (fun o ms => ends_without_issue Research o ms /\ forall v, o <> Ok v)) /\
  (subprocess_run
     [lit "gh"; lit "issue"; lit "create";
      lit "--title"; lit "[PLAN] " ++ task_description;
      lit "--body";
      lit "Create implementation plan for: " ++ task_description;
      lit "--label";
      join (lit ",") [lit "phase:plan"; lit "status:in-progress"]]
     None (ext st) = (x, Some (rc, out)) ->
   post (_phase_2_plan self task_description research_issue) st
     (fun o ms => ends_without_issue Plan o ms /\ forall v, o <> Ok v)).
Proof.
  intros Hrc. split; intros Hrun.
  - unfold _phase_1_research, banner.
    apply post_mark_Ok; [reflexivity|].
    apply post_assoc, post_print_Ok. apply post_assoc, post_print_Ok.
    apply post_print_Ok.
    apply (post_without_issue Research _ _ _
             (fun n => nl ++ lit "✅ Created issue #" ++ str_of_option n)
             _ _ _ (fun result =>
                      lit "**Research Complete**" ++ nl ++ nl ++
                      r_summary result) _ x rc out Hrc);
      [auto with quiet|intros r; auto with quiet|exact Hrun].
  - unfold _phase_2_plan, banner.
    apply post_mark_Ok; [reflexivity|].
    apply post_assoc, post_print_Ok. apply post_assoc, post_print_Ok.
    apply post_print_Ok.
    apply (post_without_issue Plan _ _ _
             (fun n => nl ++ lit "✅ Created issue #" ++ str_of_option n)
             _ _ _ (fun result =>
                      lit "**Plan Complete**" ++ nl ++ nl ++
                      pl_summary result) _ x rc out Hrc);
      [auto with quiet|intros r; auto with quiet|exact Hrun].
Qed.

End IssueFacts.

Lemma phase_without_issue_never_returns_witness :
  let P := Faulty.platform true false (inr []) in
  @post P _ (@_phase_1_research P Sim.self (lit "add login"))
    (@mkState P (Sim.world (inr (lit "down"))) [lit "yes"] [])
    (fun o ms => ends_without_issue Research o ms /\ forall v, o <> Ok v).
Proof.
  intros P.
  apply (proj1 (phase_without_issue_never_returns (H := P) Sim.self
                  (lit "add login") None
                  (@mkState P (Sim.world (inr (lit "down"))) [lit "yes"] [])
                  (Sim.world (inr (lit "down"))) 1%Z []
                  ltac:(discriminate))).
  vm_compute. reflexivity.
Defined.

(** ** PlanAgent.execute on a task list without hours *)

Section PlanExecuteFacts.
Context `{Platform}.

(** X14: when the list decoded from the service's answer holds, after
    tasks with int hours, an element that is no dict, a dict without
    [hours], or a dict whose hours are no number, [PlanAgent.execute]
    raises while estimating -- a [KeyError('hours')] in the second case,
    a [TypeError] in the others -- before anything is archived: no file
    is written and no summary is produced. *)
Theorem plan_execute_without_hours (self : Self)
  (task_description research_summary content found : str)
  (good : list json) (bad : json) (rest : list json) (hours : list Z)
  (e : Exn) (st : State) (x : Ext) :
  claude self = true ->
  messages_create model_name 2000
    (plan_prompt task_description research_summary) (ext st)
  = (x, inl content) ->
  search_json_array content = Some found ->
  json_loads found = inr (good ++ bad :: rest) ->
  map int_hours good = map Some hours ->
  hours_error bad = Some e ->
  PlanAgent.execute self task_description research_summary st =
  (Raise e,
   mkState x (stdin st)
     (trace st ++
      [EvPrint (nl ++ lit "📋 Plan Agent: " ++ task_description);
       EvPrint rule;
       EvPrint (nl ++ lit "🔨 Breaking down into tasks...");
       EvClaude (plan_prompt task_description research_summary);
       EvPrint (nl ++ lit "🔗 Identifying dependencies...");
       EvPrint (nl ++ lit "⏱️  Estimating complexity...")])).
Proof.
  intros Hc Hm Hs Hj Hg Hb.
  unfold PlanAgent.execute, _break_into_tasks, ask_claude.
  unfold bind at 1 2 3. unfold print at 1 2 3, emit at 1 2 3.
  cbn [ext stdin trace]. rewrite Hc.
  unfold bind at 1 2 3, emit at 1, with_ext at 1. cbn [ext stdin trace].
  rewrite Hm. cbn [ext stdin trace]. rewrite Hs, Hj.
  unfold ret at 1. unfold bind at 1 2 3. unfold print at 1 2, emit at 1 2.
  cbn [ext stdin trace].
  rewrite (estimate_complexity_error good bad rest hours e) by assumption.
  rewrite <- !app_assoc. reflexivity.
Qed.

End PlanExecuteFacts.

Lemma plan_execute_without_hours_witness :
  let decoded := [JDict [(lit "name", JStr (lit "Design"));
                         (lit "hours", JInt 2)];
                  JDict [(lit "name", JStr (lit "Build"));
                         (lit "hours", JStr (lit "2"))];
                  JDict []] in
  let P := Faulty.platform false false (inr decoded) in
  fst (@PlanAgent.execute P Sim.self (lit "add login") (lit "summary")
         (@mkState P (Sim.world (inl (lit "Tasks: [{}]"))) [] []))
  = Raise TypeError.
Proof.
  intros decoded P.
  rewrite (plan_execute_without_hours (H := P) Sim.self (lit "add login")
             (lit "summary") (lit "Tasks: [{}]") (lit "[{}]")
             [JDict [(lit "name", JStr (lit "Design"));
                     (lit "hours", JInt 2)]]
             (JDict [(lit "name", JStr (lit "Build"));
                     (lit "hours", JStr (lit "2"))])
             [JDict []] [2%Z] TypeError
             (@mkState P (Sim.world (inl (lit "Tasks: [{}]"))) [] [])
             (Sim.world (inl (lit "Tasks: [{}]"))));
    reflexivity.
Defined.

(** ** The summary of the default plan *)

Lemma split_app_sep (sep : N) (a b : str) :
  ~ In sep a -> split sep (a ++ sep :: b) = a :: split sep b.
Proof.
  induction a as [|c a IH]; intros Hn; cbn [app split].
  - now rewrite N.eqb_refl.
  - destruct (N.eqb_spec c sep) as [->|Hc];
      [exfalso; apply Hn; now left|].
    rewrite IH; [reflexivity|]. intros Hin. apply Hn. now right.
Qed.

Lemma default_plan_key_points (task_description : str) :
  ~ In 10 task_description ->
  create_summary
    (lit "# Implementation Plan: " ++ task_description ++ nl
     ++ default_plan_body) 2000
  = default_plan_summary.
Proof.
  intros Hn.
  set (title := lit "# Implementation Plan: " ++ task_description).
  assert (Ht : ~ In 10 title).
  { unfold title. intros Hin. apply in_app_or in Hin as [Hin|Hin];
      [|contradiction].
    vm_compute in Hin.
    repeat (destruct Hin as [Hin|Hin]; [discriminate Hin|]). exact Hin. }
  assert (Hk : is_key_point title = false).
  { rewrite is_key_point_lstrip. reflexivity. }
  assert (E : key_points_of
                (lit "# Implementation Plan: " ++ task_description ++ nl
                 ++ default_plan_body)
              = key_points_of default_plan_body).
  { unfold key_points_of. rewrite app_assoc. fold title.
    change (nl ++ default_plan_body) with (10 :: default_plan_body).
    rewrite split_app_sep by exact Ht. cbn [List.filter].
    now rewrite Hk. }
  rewrite create_summary_fits; rewrite E.
  - vm_compute. reflexivity.
  - vm_compute. discriminate.
Qed.

Section DefaultPlan.
Context `{Platform}.

(** The line of a task that has its three keys. *)
Lemma add_task_line (i : nat) (n t : str) (h : Z) (rest : list json)
  (doc : str) (st : State) :
  add_task_lines i
    (JDict [(lit "name", JStr n); (lit "type", JStr t); (lit "hours", JInt h)]
     :: rest) doc st
  = add_task_lines (S i) rest
      (doc ++ str_of_nat i ++ lit ". **" ++ n ++ lit "** (" ++ t ++
       lit ") - " ++ str_of_Z h ++ lit "h" ++ nl) st.
Proof. reflexivity. Qed.

Lemma default_plan_document (task_description : str) (st : State) :
  _create_plan_document task_description default_tasks
    (_identify_dependencies default_tasks)
    (mkComplexity (NInt 13) (lit "high") (lit "enterprise")) st
  = (Ok (lit "# Implementation Plan: " ++ task_description ++ nl
         ++ default_plan_body), st).
Proof.
  unfold _create_plan_document, bind, default_tasks.
  rewrite !add_task_line. cbn [add_task_lines ret].
  cbn [add_lines fold_left _identify_dependencies fst snd length
       total_hours complexity recommended_track str_of_json str_of_number].
  f_equal. f_equal. rewrite <- !app_assoc. reflexivity.
Qed.

End DefaultPlan.

Section DefaultPlanSummary.
Context `{Platform}.

(** X15: when the agents hold no client and the task description is a
    single line, the summary the plan agent hands to the Plan Review
    checkpoint counts 13 key points and shows tasks 1 to 3 only: the
    lines of tasks 4, 5 and 6 and step 4 of the implementation order
    start with a digit above 3 and are left out, although the plan counts
    6 tasks and 13 hours. *)
Theorem plan_summary_without_client (self : Self)
  (task_description research_summary : str) (st st' : State)
  (r : PlanResult) :
  claude self = false ->
  ~ In 10 task_description ->
  PlanAgent.execute self task_description research_summary st = (Ok r, st') ->
  pl_summary r = default_plan_summary /\
  pl_task_count r = 6%nat /\
  pl_estimated_hours r = NInt 13 /\
  contains (lit "4. **Write unit tests**") (pl_summary r) = false.
Proof.
  intros Hc Hn E. unfold PlanAgent.execute in E.
  apply bind_Ok_inv in E as (? & s1 & _ & E).
  apply bind_Ok_inv in E as (? & s2 & _ & E).
  apply bind_Ok_inv in E as (? & s3 & _ & E).
  apply bind_Ok_inv in E as (tasks & s4 & Et & E).
  unfold _break_into_tasks in Et. rewrite Hc in Et. injection Et as <- _.
  apply bind_Ok_inv in E as (? & s5 & _ & E). cbv zeta in E.
  apply bind_Ok_inv in E as (? & s6 & _ & E).
  apply bind_Ok_inv in E as (cx & s7 & Ec & E).
  assert (Hcx : _estimate_complexity default_tasks s6 =
                (Ok (mkComplexity (NInt 13) (lit "high") (lit "enterprise")),
                 s6))
    by exact (estimate_complexity_ints default_tasks [1; 4; 2; 3; 2; 1]%Z
                s6 eq_refl).
  rewrite Hcx in Ec. injection Ec as <- <-.
  apply bind_Ok_inv in E as (full_plan & s8 & Ed & E).
  rewrite default_plan_document in Ed. injection Ed as <- <-.
  apply bind_Ok_inv in E as (path & s9 & _ & E).
  injection E as <- _.
  cbn [pl_summary pl_task_count pl_estimated_hours total_hours].
  match goal with
  | |- create_summary ?doc 2000 = _ /\ _ =>
    assert (Hs : create_summary doc 2000 = default_plan_summary)
      by exact (default_plan_key_points task_description Hn);
    rewrite Hs
  end.
  repeat split.
Qed.

End DefaultPlanSummary.

Lemma plan_summary_without_client_witness :
  let res := PlanAgent.execute (mkSelf (lit "/repo") false)
               (lit "add login") (lit "Research completed successfully")
               (Sim.start (Sim.world (inr (lit "down"))) []) in
  match fst res with
  | Ok r => pl_summary r = default_plan_summary
  | _ => False
  end.
Proof.
  intros res. destruct (fst res) as [r|e|c] eqn:Er.
  - apply (plan_summary_without_client (H := Sim.platform)
             (mkSelf (lit "/repo") false) (lit "add login")
             (lit "Research completed successfully")
             (Sim.start (Sim.world (inr (lit "down"))) []) (snd res) r).
    + reflexivity.
    + vm_compute. intros Hin.
      repeat (destruct Hin as [Hin|Hin]; [discriminate Hin|]). exact Hin.
    + fold res. rewrite <- Er. apply surjective_pairing.
  - vm_compute in Er. discriminate Er.
  - vm_compute in Er. discriminate Er.
Defined.

(** ** Errors of the Claude service *)

Lemma claude_calls_app (a b : list Event) :
  claude_calls (a ++ b) = (claude_calls a + claude_calls b)%nat.
Proof. unfold claude_calls. now rewrite List.filter_app, length_app. Qed.

Section Appends.
Context `{Platform}.

Lemma appends_ret {A} (a : A) : appends (ret a).
Proof. intros st. exists []. now rewrite app_nil_r. Qed.

Lemma appends_raise {A} (e : Exn) : appends (@raise _ A e).
Proof. intros st. exists []. now rewrite app_nil_r. Qed.

Lemma appends_sys_exit {A} (c : Z) : appends (@sys_exit _ A c).
Proof. intros st. exists []. now rewrite app_nil_r. Qed.

Lemma appends_emit (e : Event) : appends (emit e).
Proof. intros st. now exists [e]. Qed.

Lemma appends_print (line : str) : appends (print line).
Proof. apply appends_emit. Qed.

Lemma appends_with_ext {A} (f : Ext -> Ext * A) : appends (with_ext f).
Proof.
  intros st. exists []. unfold with_ext. destruct (f (ext st)).
  cbn. now rewrite app_nil_r.
Qed.

Lemma appends_bind {A B} (m : M A) (k : A -> M B) :
  appends m -> (forall a, appends (k a)) -> appends (bind m k).
Proof.
  intros Hm Hk st. unfold bind. destruct (Hm st) as [evs E].
  destruct (m st) as [[a|e|c] st1]; cbn [snd] in *;
    [|now exists evs|now exists evs].
  destruct (Hk a st1) as [evs' E']. exists (evs ++ evs').
  now rewrite E', E, app_assoc.
Qed.

Lemma appends_run argv cwd : appends (run argv cwd).
Proof.
  unfold run.
  apply appends_bind; [apply appends_emit|intros _].
  apply appends_bind; [apply appends_with_ext|intros [out|]];
    [apply appends_ret|apply appends_raise].
Qed.

Lemma appends_comment_issue n comment : appends (comment_issue n comment).
Proof.
  unfold comment_issue. destruct n as [n|]; [|apply appends_raise].
  apply appends_bind; [apply appends_run|intros _; apply appends_ret].
Qed.

Lemma appends_close_issue n : appends (close_issue n).
Proof.
  unfold close_issue. destruct n as [n|]; [|apply appends_raise].
  apply appends_bind; [apply appends_run|intros _; apply appends_ret].
Qed.

(** Each turn of the loop starts with the prompt. *)
Lemma approval_loop_prompts data pending st :
  exists post,
    trace (snd (approval_loop data pending st))
    = trace st ++ EvPrompt approval_prompt :: post.
Proof.
  revert st. induction pending as [|line rest IH]; intros st;
    cbn [approval_loop ext stdin trace].
  - now exists [].
  - destruct (member (lower line) [lit "yes"; lit "y"]);
      [now exists []|].
    destruct (member (lower line) [lit "no"; lit "n"]);
      [now exists []|].
    destruct (member (lower line) [lit "modify"; lit "m"]).
    + exists [EvPrint (nl ++ lit "📝 Modification not implemented yet.");
              EvPrint (lit "   Please approve or reject for now.")].
      unfold _handle_modify, bind, print, emit, ret.
      cbn [snd ext stdin trace]. now rewrite <- !app_assoc.
    + destruct (IH (mkState (ext st) rest
                      (trace st ++ [EvPrompt approval_prompt])))
        as [post E].
      exists (EvPrompt approval_prompt :: post). rewrite E.
      cbn [trace]. now rewrite <- app_assoc.
Qed.

(** From a checkpoint on: the prompt is written, and no call of the
    Claude service is made when what follows the decision makes none. *)
Lemma checkpoint_tail {A} checkpoint_type data (k : bool -> M A) st :
  (forall b, appends (k b)) -> (forall b, mute (k b)) ->
  exists mid post,
    trace (snd (bind (request_approval checkpoint_type data) k st))
    = trace st ++ mid ++ EvPrompt approval_prompt :: post /\
    claude_calls (mid ++ post) = 0%nat.
Proof.
  intros Ha Hm.
  assert (Htr : exists mid post,
             trace (snd (bind (request_approval checkpoint_type data) k st))
             = trace st ++ mid ++ EvPrompt approval_prompt :: post).
  { unfold bind.
    destruct (request_approval_loop checkpoint_type data st) as [lines ->].
    destruct (approval_loop_prompts data (stdin st)
                (mkState (ext st) (stdin st) (trace st ++ map EvPrint lines)))
      as [post E].
    cbn [trace] in E.
    destruct (approval_loop _ _ _) as [[b|e|c] st1]; cbn [snd] in *.
    - destruct (Ha b st1) as [evs E']. exists (map EvPrint lines), (post ++ evs).
      rewrite E', E, <- !app_assoc. reflexivity.
    - exists (map EvPrint lines), post. now rewrite E, <- app_assoc.
    - exists (map EvPrint lines), post. now rewrite E, <- app_assoc. }
  destruct Htr as (mid & post & E). exists mid, post. split; [exact E|].
  pose proof (mute_bind _ _ (mute_request_approval checkpoint_type data) Hm st)
    as Hc.
  rewrite E in Hc.
  change (EvPrompt approval_prompt :: post)
    with ([EvPrompt approval_prompt] ++ post) in Hc.
  rewrite !claude_calls_app in Hc. rewrite claude_calls_app.
  change (claude_calls [EvPrompt approval_prompt]) with 0%nat in Hc. lia.
Qed.

(** What follows the decision of the Research and of the Plan phase. *)
Lemma appends_after_decision (p : Phase) (approved : bool) (stop : str)
  (issue_number : option str) (comment : str) :
  appends (emit (EvDecision p approved) ;;
           if negb approved then print stop ;; sys_exit 1
           else
             comment_issue issue_number comment ;;
             close_issue issue_number ;;
             ret issue_number).
Proof.
  apply appends_bind; [apply appends_emit|intros _].
  destruct approved; cbn [negb].
  - apply appends_bind; [apply appends_comment_issue|intros _].
    apply appends_bind; [apply appends_close_issue|intros _].
    apply appends_ret.
  - apply appends_bind; [apply appends_print|intros _].
    apply appends_sys_exit.
Qed.

Lemma mute_after_decision (p : Phase) (approved : bool) (stop : str)
  (issue_number : option str) (comment : str) :
  mute (emit (EvDecision p approved) ;;
        if negb approved then print stop ;; sys_exit 1
        else
          comment_issue issue_number comment ;;
          close_issue issue_number ;;
          ret issue_number).
Proof.
  apply mute_bind; [apply mute_emit; exact I|intros _].
  destruct approved; cbn [negb].
  - apply mute_bind; [apply mute_comment_issue|intros _].
    apply mute_bind; [apply mute_close_issue|intros _].
    apply mute_ret.
  - apply mute_bind; [apply mute_print|intros _].
    apply mute_sys_exit.
Qed.

End Appends.

Section Fallback.
Context `{Platform}.

Lemma bind_bind {A B C} (m : M A) (k1 : A -> M B) (k2 : B -> M C) st :
  bind (bind m k1) k2 st = bind m (fun a => bind (k1 a) k2) st.
Proof. unfold bind. now destruct (m st) as [[a|e|c] st1]. Qed.

Lemma bind_print {B} (line : str) (k : unit -> M B) st :
  bind (print line) k st
  = k tt (mkState (ext st) (stdin st) (trace st ++ [EvPrint line])).
Proof. reflexivity. Qed.

Lemma bind_emit {B} (e : Event) (k : unit -> M B) st :
  bind (emit e) k st = k tt (mkState (ext st) (stdin st) (trace st ++ [e])).
Proof. reflexivity. Qed.

Lemma bind_Ok {A B} (m : M A) (k : A -> M B) st a st1 :
  m st = (Ok a, st1) -> bind m k st = k a st1.
Proof. intros E. unfold bind. now rewrite E. Qed.

End Fallback.

(** Runs a step of the computation whose outcome the lemma [lem] gives. *)
Ltac run_with lem :=
  lazymatch goal with
  | |- bind ?m ?k ?s = _ =>
    erewrite (bind_Ok m k s)
      by (eapply lem; first [eassumption | reflexivity])
  | |- continues_to_checkpoint _ (trace (snd (bind ?m ?k ?s))) _ =>
    erewrite (bind_Ok m k s)
      by (eapply lem; first [eassumption | reflexivity])
  end.

(** Runs the marks, the prints and the banner the computation starts
    with. *)
Ltac run_prints :=
  repeat first [rewrite bind_bind | rewrite bind_print | rewrite bind_emit].

Section FallbackRuns.
Context `{Platform}.

Lemma create_issue_at (title body : str) (labels : list str)
  (st : State) (x0 x : Ext) (rc : Z) (out : str) :
  ext st = x0 ->
  subprocess_run
    [lit "gh"; lit "issue"; lit "create"; lit "--title"; title;
     lit "--body"; body; lit "--label"; join (lit ",") labels]
    None x0 = (x, Some (rc, out)) ->
  create_issue title body labels st =
  (Ok (if (rc =? 0)%Z
       then Some (List.last (split 47 (strip out)) [])
       else None),
   mkState x (stdin st)
     (trace st ++
      [EvRun [lit "gh"; lit "issue"; lit "create"; lit "--title"; title;
              lit "--body"; body; lit "--label"; join (lit ",") labels]])).
Proof. intros <-. apply create_issue_result. Qed.

Lemma research_document_falls_back (self : Self) (topic : str)
  (kb_results : list Pattern) (code_examples : list CodeExample)
  (docs : list str) (st : State) (x0 x : Ext) (e : str) :
  claude self = true -> ext st = x0 ->
  messages_create model_name 4000
    (research_prompt topic kb_results code_examples docs) x0
  = (x, inr e) ->
  _create_research_document self topic kb_results code_examples docs st =
  (Ok (basic_research_document topic kb_results code_examples docs),
   mkState x (stdin st)
     (trace st ++
      [EvClaude (research_prompt topic kb_results code_examples docs);
       EvPrint (lit "⚠️  Claude API error: " ++ e);
       EvPrint (lit "   Falling back to basic document...")])).
Proof.
  intros Hc <- Hm.
  unfold _create_research_document, ask_claude, bind, emit, with_ext,
    print, emit, ret.
  rewrite Hc. cbn [ext stdin trace]. rewrite Hm. cbn [ext stdin trace].
  rewrite <- !app_assoc. reflexivity.
Qed.

Lemma break_into_tasks_falls_back (self : Self)
  (task_description research_summary : str) (st : State) (x0 x : Ext)
  (e : str) :
  claude self = true -> ext st = x0 ->
  messages_create model_name 2000
    (plan_prompt task_description research_summary) x0
  = (x, inr e) ->
  _break_into_tasks self task_description research_summary st =
  (Ok default_tasks,
   mkState x (stdin st)
     (trace st ++
      [EvClaude (plan_prompt task_description research_summary);
       EvPrint (lit "⚠️  Claude API error: " ++ e);
       EvPrint (lit "   Using default tasks...")])).
Proof.
  intros Hc <- Hm.
  unfold _break_into_tasks, ask_claude, bind, emit, with_ext,
    print, emit, ret.
  rewrite Hc. cbn [ext stdin trace]. rewrite Hm. cbn [ext stdin trace].
  rewrite <- !app_assoc. reflexivity.
Qed.

Lemma save_full_output_ok (self : Self) (agent_name phase content : str)
  (st : State) (x0 x1 : Ext) (ts : str) (x2 : Ext) :
  let path := archive_path self agent_name phase ts in
  ext st = x0 ->
  strftime_now x0 = (x1, ts) ->
  write_text path content x1 = (x2, true) ->
  save_full_output self agent_name phase content st =
  (Ok path, mkState x2 (stdin st) (trace st ++ [EvWrite path content])).
Proof.
  intros path <- Hc Hw. unfold path, archive_path in *.
  unfold save_full_output, _timestamp, bind, with_ext, write_file, bind,
    with_ext, emit, ret.
  rewrite Hc. cbn [ext stdin trace]. rewrite Hw. reflexivity.
Qed.

Lemma research_execute_falls_back (self : Self) (topic : str)
  (sources : list str) (st : State) (x0 x : Ext) (e : str) (x1 : Ext)
  (ts : str) (x2 : Ext) :
  let kb_results := _search_knowledge_base topic in
  let code_examples := _search_code_examples topic in
  let docs := _review_docs topic in
  let prompt := research_prompt topic kb_results code_examples docs in
  let doc := basic_research_document topic kb_results code_examples docs in
  let path := archive_path self (lit "research") topic ts in
  claude self = true -> ext st = x0 ->
  messages_create model_name 4000 prompt x0 = (x, inr e) ->
  strftime_now x = (x1, ts) ->
  write_text path doc x1 = (x2, true) ->
  ResearchAgent.execute self topic sources st =
  (Ok (mkResearchResult (create_summary doc 2000) path
         (length kb_results + length code_examples)
         (_generate_recommendation kb_results code_examples)),
   mkState x2 (stdin st)
     (trace st ++
      [EvPrint (nl ++ lit "🔍 Research Agent: " ++ topic);
       EvPrint rule;
       EvPrint (nl ++ lit "📚 Searching knowledge base...");
       EvPrint (nl ++ lit "💻 Searching code examples...");
       EvPrint (nl ++ lit "📖 Reviewing documentation...")] ++
      [EvClaude prompt;
       EvPrint (lit "⚠️  Claude API error: " ++ e);
       EvPrint (lit "   Falling back to basic document...");
       EvWrite path doc])).
Proof.
  intros kb_results code_examples docs prompt doc path Hc <- Hm Ht Hw.
  unfold ResearchAgent.execute.
  run_prints. cbv zeta.
  run_with research_document_falls_back.
  run_with save_full_output_ok.
  unfold ret. cbn [ext stdin trace]. rewrite <- !app_assoc. reflexivity.
Qed.

Lemma estimate_default_tasks (st : State) :
  _estimate_complexity default_tasks st =
  (Ok (mkComplexity (NInt 13) (lit "high") (lit "enterprise")), st).
Proof.
  exact (estimate_complexity_ints default_tasks [1; 4; 2; 3; 2; 1]%Z st
           eq_refl).
Qed.

Lemma plan_execute_falls_back (self : Self)
  (task_description research_summary : str) (st : State) (x0 x : Ext)
  (e : str) (x1 : Ext) (ts : str) (x2 : Ext) :
  let prompt := plan_prompt task_description research_summary in
  let doc :=
    lit "# Implementation Plan: " ++ task_description ++ nl ++
    default_plan_body in
  let path := archive_path self (lit "plan") task_description ts in
  claude self = true -> ext st = x0 ->
  messages_create model_name 2000 prompt x0 = (x, inr e) ->
  strftime_now x = (x1, ts) ->
  write_text path doc x1 = (x2, true) ->
  PlanAgent.execute self task_description research_summary st =
  (Ok (mkPlanResult (create_summary doc 2000) path 6 (NInt 13) false),
   mkState x2 (stdin st)
     (trace st ++
      [EvPrint (nl ++ lit "📋 Plan Agent: " ++ task_description);
       EvPrint rule;
       EvPrint (nl ++ lit "🔨 Breaking down into tasks...")] ++
      [EvClaude prompt;
       EvPrint (lit "⚠️  Claude API error: " ++ e);
       EvPrint (lit "   Using default tasks...");
       EvPrint (nl ++ lit "🔗 Identifying dependencies...");
       EvPrint (nl ++ lit "⏱️  Estimating complexity...");
       EvWrite path doc])).
Proof.
  intros prompt doc path Hc <- Hm Ht Hw.
  subst prompt doc path.
  unfold PlanAgent.execute.
  run_prints.
  run_with break_into_tasks_falls_back.
  run_prints. cbv zeta.
  run_with estimate_default_tasks.
  run_with default_plan_document.
  run_with save_full_output_ok.
  unfold ret. cbn [ext stdin trace total_hours length default_tasks].
  rewrite <- !app_assoc. reflexivity.
Qed.

(** C5, as amended: in the Research and Plan phases an exception of the
    Claude call is not fatal.  The call is made once and not retried;
    the exception is caught and reported, and a fallback output is
    substituted: the basic research document, the default task list.
    With it the phase goes on to its checkpoint whenever [gh] can be
    started and the archive can be written: the service is called, the
    error and the fallback are reported, the document made from the
    fallback is archived and the checkpoint asks for approval, and no
    other call of the service is made in the phase. *)
Theorem claude_error_falls_back (self : Self)
  (topic : str) (kb_results : list Pattern)
  (code_examples : list CodeExample) (docs : list str)
  (task_description research_summary : str)
  (research_issue : option str)
  (st : State) (x : Ext) (e : str) :
  claude self = true ->
  (messages_create model_name 4000
     (research_prompt topic kb_results code_examples docs) (ext st)
   = (x, inr e) ->
   _create_research_document self topic kb_results code_examples docs st =
   (Ok (basic_research_document topic kb_results code_examples docs),
    mkState x (stdin st)
      (trace st ++
       [EvClaude (research_prompt topic kb_results code_examples docs);
        EvPrint (lit "⚠️  Claude API error: " ++ e);
        EvPrint (lit "   Falling back to basic document...")]))) /\
  (messages_create model_name 2000
     (plan_prompt task_description research_summary) (ext st)
   = (x, inr e) ->
   _break_into_tasks self task_description research_summary st =
   (Ok default_tasks,
    mkState x (stdin st)
      (trace st ++
       [EvClaude (plan_prompt task_description research_summary);
        EvPrint (lit "⚠️  Claude API error: " ++ e);
        EvPrint (lit "   Using default tasks...")]))) /\
  (forall (x0 : Ext) (gh : Z * str) (x1 : Ext) (ts : str) (x2 : Ext),
     let prompt :=
       research_prompt task_description
         (_search_knowledge_base task_description)
         (_search_code_examples task_description)
         (_review_docs task_description) in
     let doc :=
       basic_research_document task_description
         (_search_knowledge_base task_description)
         (_search_code_examples task_description)
         (_review_docs task_description) in
     let path := archive_path self (lit "research") task_description ts in
     subprocess_run
       [lit "gh"; lit "issue"; lit "create";
        lit "--title"; lit "[RESEARCH] " ++ task_description;
        lit "--body";
        lit "Research patterns and examples for: " ++ task_description;
        lit "--label";
        join (lit ",") [lit "phase:research"; lit "status:in-progress"]]
       None (ext st) = (x0, Some gh) ->
     messages_create model_name 4000 prompt x0 = (x, inr e) ->
     strftime_now x = (x1, ts) ->
     write_text path doc x1 = (x2, true) ->
     continues_to_checkpoint (trace st)
       (trace (snd (_phase_1_research self task_description st)))
       [EvClaude prompt;
        EvPrint (lit "⚠️  Claude API error: " ++ e);
        EvPrint (lit "   Falling back to basic document...");
        EvWrite path doc]) /\
  (forall (x0 : Ext) (gh : Z * str) (x1 : Ext) (ts : str) (x2 : Ext),
     let prompt :=
       plan_prompt task_description (lit "Research completed successfully") in
     let doc :=
       lit "# Implementation Plan: " ++ task_description ++ nl ++
       default_plan_body in
     let path := archive_path self (lit "plan") task_description ts in
     subprocess_run
       [lit "gh"; lit "issue"; lit "create";
        lit "--title"; lit "[PLAN] " ++ task_description;
        lit "--body";
        lit "Create implementation plan for: " ++ task_description;
        lit "--label";
        join (lit ",") [lit "phase:plan"; lit "status:in-progress"]]
       None (ext st) = (x0, Some gh) ->
     messages_create model_name 2000 prompt x0 = (x, inr e) ->
     strftime_now x = (x1, ts) ->
     write_text path doc x1 = (x2, true) ->
     continues_to_checkpoint (trace st)
       (trace (snd (_phase_2_plan self task_description research_issue st)))
       [EvClaude prompt;
        EvPrint (lit "⚠️  Claude API error: " ++ e);
        EvPrint (lit "   Using default tasks...");
        EvPrint (nl ++ lit "🔗 Identifying dependencies...");
        EvPrint (nl ++ lit "⏱️  Estimating complexity...");
        EvWrite path doc]).
Proof.
  intros Hc. split; [|split; [|split]].
  - now apply (research_document_falls_back self topic kb_results
                 code_examples docs st (ext st)).
  - now apply (break_into_tasks_falls_back self task_description
                 research_summary st (ext st)).
  - intros x0 [rc out] x1 ts x2 prompt doc path Hgh Hm Ht Hw.
    unfold _phase_1_research, banner.
    run_prints.
    run_with create_issue_at.
    run_prints.
    run_with research_execute_falls_back.
    match goal with
    | |- context [bind (request_approval ?ct ?data) ?k ?s] =>
      destruct (checkpoint_tail ct data k s) as (mid & post & E & Hcalls);
        [intros b; apply appends_after_decision
        |intros b; apply mute_after_decision|]
    end.
    rewrite E. cbn [trace].
    match goal with
    | |- context [EvPrint (nl ++ lit "✅ Created issue #" ++ ?n)] =>
      exists [EvPhase Research; EvPrint (nl ++ rule);
              EvPrint (lit "📚 PHASE 1: RESEARCH"); EvPrint rule;
              EvRun [lit "gh"; lit "issue"; lit "create";
                     lit "--title"; lit "[RESEARCH] " ++ task_description;
                     lit "--body";
                     lit "Research patterns and examples for: "
                     ++ task_description;
                     lit "--label";
                     join (lit ",")
                       [lit "phase:research"; lit "status:in-progress"]];
              EvPrint (nl ++ lit "✅ Created issue #" ++ n);
              EvAgent Research;
              EvPrint (nl ++ lit "🔍 Research Agent: " ++ task_description);
              EvPrint rule;
              EvPrint (nl ++ lit "📚 Searching knowledge base...");
              EvPrint (nl ++ lit "💻 Searching code examples...");
              EvPrint (nl ++ lit "📖 Reviewing documentation...")],
             mid, post
    end.
    split; [rewrite <- !app_assoc; reflexivity|].
    rewrite claude_calls_app, Hcalls. reflexivity.
  - intros x0 [rc out] x1 ts x2 prompt doc path Hgh Hm Ht Hw.
    unfold _phase_2_plan, banner.
    run_prints.
    run_with create_issue_at.
    run_prints. cbv zeta. run_prints.
    run_with plan_execute_falls_back.
    match goal with
    | |- context [bind (request_approval ?ct ?data) ?k ?s] =>
      destruct (checkpoint_tail ct data k s) as (mid & post & E & Hcalls);
        [intros b; apply appends_after_decision
        |intros b; apply mute_after_decision|]
    end.
    rewrite E. cbn [trace].
    match goal with
    | |- context [EvPrint (nl ++ lit "✅ Created issue #" ++ ?n)] =>
      exists [EvPhase Plan; EvPrint (nl ++ rule);
              EvPrint (lit "📋 PHASE 2: PLAN"); EvPrint rule;
              EvRun [lit "gh"; lit "issue"; lit "create";
                     lit "--title"; lit "[PLAN] " ++ task_description;
                     lit "--body";
                     lit "Create implementation plan for: "
                     ++ task_description;
                     lit "--label";
                     join (lit ",")
                       [lit "phase:plan"; lit "status:in-progress"]];
              EvPrint (nl ++ lit "✅ Created issue #" ++ n);
              EvAgent Plan;
              EvPrint (nl ++ lit "📋 Plan Agent: " ++ task_description);
              EvPrint rule;
              EvPrint (nl ++ lit "🔨 Breaking down into tasks...")],
             mid, post
    end.
    split; [rewrite <- !app_assoc; reflexivity|].
    rewrite claude_calls_app, Hcalls. reflexivity.
Qed.

End FallbackRuns.

Lemma claude_error_falls_back_witness :
  let st := Sim.start (Sim.world (inr (lit "overloaded"))) [lit "yes"] in
  claude Sim.self = true /\
  exists prompt path doc,
    continues_to_checkpoint (trace st)
      (trace (snd (_phase_1_research Sim.self (lit "login") st)))
      [EvClaude prompt;
       EvPrint (lit "⚠️  Claude API error: " ++ lit "overloaded");
       EvPrint (lit "   Falling back to basic document...");
       EvWrite path doc].
Proof.
  intros st. split; [reflexivity|].
  eexists _, _, _.
  eapply (proj1 (proj2 (proj2
            (claude_error_falls_back (H := Sim.platform) Sim.self
               (lit "login") [] [] [] (lit "login") [] None st
               _ (lit "overloaded") eq_refl))));
    vm_compute; reflexivity.
Defined.

